(** * The Scrap Shop: a shallow embedding of [app.py]

    The Flask application [src/app.py] has three handlers with behaviour
    worth verifying: [handle_purchase] (POST /purchase), [create_payment]
    (POST /create-payment) and [execute_payment] (GET /execute-payment).

    The embedding follows the Python text:
    - JSON request data are Python values ([pyval]);
    - Python exceptions are values of [exn], threaded by the monad [M]
      together with the trace of calls made to the outside world (the
      Discord webhook and the PayPal SDK);
    - the outside world is an oracle ([world]) answering those calls;
    - Python floats are IEEE binary64 values ([spec_float] at precision
      53), with [float()], [str()] and the [.2f] format computed exactly;
    - a Python [str] is a [string] whose characters are its code points
      (the model covers text with code points below 256);
    - the calls to [logger] are left out: they change neither the
      answer nor the calls to the outside. *)

From Stdlib Require Import Bool List ZArith Lia Ascii String DecimalString.
From Stdlib Require Import SpecFloat.
Import ListNotations.

Local Open Scope string_scope.
Local Open Scope Z_scope.

(** ** Python strings *)

Module PyStr.

Definition code (c : ascii) : Z := Z.of_nat (nat_of_ascii c).

Definition chr (n : Z) : ascii := ascii_of_nat (Z.to_nat n).

(** [str.isspace] on one character, for code points below 256. *)
Definition isspace (c : ascii) : bool :=
  let n := code c in
  ((9 <=? n) && (n <=? 13)) || ((28 <=? n) && (n <=? 32))
  || (n =? 133) || (n =? 160).

Definition isdigit (c : ascii) : bool :=
  let n := code c in (48 <=? n) && (n <=? 57).

Fixpoint lstrip (l : list ascii) : list ascii :=
  match l with
  | c :: l' => if isspace c then lstrip l' else l
  | [] => []
  end.

Definition rstrip (l : list ascii) : list ascii := rev (lstrip (rev l)).

(** [s.strip()] *)
Definition strip (s : string) : string :=
  string_of_list_ascii (rstrip (lstrip (list_ascii_of_string s))).

Definition lower_char (c : ascii) : ascii :=
  let n := code c in
  if ((65 <=? n) && (n <=? 90))
     || ((192 <=? n) && (n <=? 222) && negb (n =? 215))
  then chr (n + 32) else c.

(** [s.lower()] *)
Fixpoint lower (s : string) : string :=
  match s with
  | EmptyString => EmptyString
  | String c s' => String (lower_char c) (lower s')
  end.

(** [s.replace(a, b)] for one-character [a] and [b]. *)
Fixpoint replace (a b : ascii) (s : string) : string :=
  match s with
  | EmptyString => EmptyString
  | String c s' => String (if Ascii.eqb c a then b else c) (replace a b s')
  end.

(** [s.split(sep)] for a one-character separator: one more piece than
    there are separators, empty pieces kept. *)
Fixpoint split (sep : ascii) (s : string) : list string :=
  match s with
  | EmptyString => [EmptyString]
  | String c s' =>
      if Ascii.eqb c sep then EmptyString :: split sep s'
      else match split sep s' with
           | piece :: pieces => String c piece :: pieces
           | [] => [String c EmptyString]
           end
  end.

(** [sep.join(pieces)] *)
Fixpoint join (sep : string) (pieces : list string) : string :=
  match pieces with
  | [] => EmptyString
  | [p] => p
  | p :: rest => p ++ sep ++ join sep rest
  end.

(** [c in s] for a character [c]. *)
Fixpoint contains (c : ascii) (s : string) : bool :=
  match s with
  | EmptyString => false
  | String c' s' => Ascii.eqb c' c || contains c s'
  end.

(** [sub in s] *)
Fixpoint has_substring (sub s : string) : bool :=
  String.prefix sub s
  || match s with
     | EmptyString => false
     | String _ s' => has_substring sub s'
     end.

(** [str(n)] for an [int]. *)
Definition of_Z (n : Z) : string := NilZero.string_of_int (Z.to_int n).

Fixpoint zeros (n : nat) : string :=
  match n with
  | O => EmptyString
  | S n' => String "0" (zeros n')
  end.

(** Decimal digits of [n >= 0], left-padded with zeros to [width]. *)
Definition of_Z_padded (width : nat) (n : Z) : string :=
  let s := of_Z n in zeros (width - String.length s) ++ s.

Definition hex_digit (n : Z) : ascii :=
  if n <? 10 then chr (48 + n) else chr (87 + n).

Definition newline : string := String (chr 10) EmptyString.

Definition backslash : ascii := chr 92.
Definition squote : ascii := chr 39.
Definition dquote : ascii := chr 34.

End PyStr.

(** ** Python floats: IEEE 754 binary64 *)

Module PyFloat.

Definition prec : Z := 53.
Definition emax : Z := 1024.

Definition float := spec_float.

Definition eqb (x y : float) : bool :=
  match x, y with
  | S754_zero a, S754_zero b => Bool.eqb a b
  | S754_infinity a, S754_infinity b => Bool.eqb a b
  | S754_nan, S754_nan => true
  | S754_finite a m e, S754_finite b m' e' =>
      Bool.eqb a b && Pos.eqb m m' && Z.eqb e e'
  | _, _ => false
  end.

Definition zero : float := S754_zero false.

(** [x < 0] *)
Definition ltb0 (x : float) : bool := SFltb x zero.

(** [bool(x)]: every float but the two zeros is true. *)
Definition truthy (x : float) : bool :=
  match x with S754_zero _ => false | _ => true end.

(** [float(n)] for an [int]: the nearest binary64, ties to even;
    [None] stands for [OverflowError]. *)
Definition of_Z (n : Z) : option float :=
  match binary_normalize prec emax n 0 false with
  | S754_infinity _ => None
  | x => Some x
  end.

(** The binary64 nearest to [m * 10^e10] (ties to even), with the sign
    [neg]; [m >= 0]. Values beyond the range become an infinity, values
    below it a zero, as [strtod] does. *)
Definition of_decimal (neg : bool) (m : Z) (e10 : Z) : float :=
  match m with
  | Zpos p =>
      if 400 <? e10 then S754_infinity neg
      else if (Z.log2 m + 1) / 3 + 1 + e10 <? -400 then S754_zero neg
      else if 0 <=? e10 then binary_round prec emax neg (Z.to_pos (m * 10 ^ e10)) 0
      else SFdiv prec emax (S754_finite neg p 0)
                 (S754_finite false (Z.to_pos (10 ^ (- e10))) 0)
  | _ => S754_zero neg
  end.

(** *** Reading a float: [float(s)] for a [str] *)

Fixpoint take_digits (l : list ascii) (acc cnt : Z) : Z * Z * list ascii :=
  match l with
  | c :: l' =>
      if PyStr.isdigit c then take_digits l' (10 * acc + (PyStr.code c - 48)) (cnt + 1)
      else (acc, cnt, l)
  | [] => (acc, cnt, [])
  end.

Definition is_char (c : ascii) (lo up : ascii) : bool :=
  Ascii.eqb c lo || Ascii.eqb c up.

Definition take_sign (l : list ascii) : bool * list ascii :=
  match l with
  | "-"%char :: l' => (true, l')
  | "+"%char :: l' => (false, l')
  | _ => (false, l)
  end.

(** The optional exponent part: consumed only when it has a digit. *)
Definition take_exponent (l : list ascii) : Z * list ascii :=
  match l with
  | c :: l' =>
      if is_char c "e" "E" then
        let '(neg, l'') := take_sign l' in
        let '(ev, cnt, rest) := take_digits l'' 0 0 in
        if cnt =? 0 then (0, l) else ((if neg then - ev else ev), rest)
      else (0, l)
  | [] => (0, l)
  end.

(** Case-insensitive match of a lower-case word at the head of [l]. *)
Fixpoint match_word (w : list ascii) (l : list ascii) : option (list ascii) :=
  match w, l with
  | [], _ => Some l
  | a :: w', c :: l' =>
      if Ascii.eqb (PyStr.lower_char c) a then match_word w' l' else None
  | _ :: _, [] => None
  end.

Definition parse_inf_or_nan (l : list ascii) : option (float * list ascii) :=
  let '(neg, l1) := take_sign l in
  match match_word (list_ascii_of_string "inf") l1 with
  | Some l2 =>
      match match_word (list_ascii_of_string "inity") l2 with
      | Some l3 => Some (S754_infinity neg, l3)
      | None => Some (S754_infinity neg, l2)
      end
  | None =>
      match match_word (list_ascii_of_string "nan") l1 with
      | Some l2 => Some (S754_nan, l2)
      | None => None
      end
  end.

(** [sign digits [. digits] [exponent]] with at least one digit. *)
Definition parse_decimal (l : list ascii) : option (float * list ascii) :=
  let '(neg, l1) := take_sign l in
  let '(ip, n1, l2) := take_digits l1 0 0 in
  let '(m, n2, l3) :=
    match l2 with
    | "."%char :: l2' => take_digits l2' ip 0
    | _ => (ip, 0, l2)
    end in
  if n1 + n2 =? 0 then None
  else
    let '(ev, rest) := take_exponent l3 in
    Some (of_decimal neg m (ev - n2), rest).

(** Underscores may only stand between two digits; they are dropped. *)
Fixpoint drop_underscores (prev : option ascii) (l : list ascii)
  : option (list ascii) :=
  let digit_before :=
    match prev with Some p => PyStr.isdigit p | None => false end in
  match l with
  | [] =>
      match prev with
      | Some "_"%char => None
      | _ => Some []
      end
  | "_"%char :: l' =>
      if digit_before then drop_underscores (Some "_"%char) l' else None
  | c :: l' =>
      match prev with
      | Some "_"%char =>
          if PyStr.isdigit c
          then option_map (cons c) (drop_underscores (Some c) l')
          else None
      | _ => option_map (cons c) (drop_underscores (Some c) l')
      end
  end.

(** The white space that [float] skips at both ends. It reads the code
    points below 127 as they are, and of those the C locale has tab,
    line feed, vertical tab, form feed, carriage return and the space;
    above, the Unicode spaces 133 and 160 count. (The separators 28 to
    31, which [str.strip] removes, are not skipped.) *)
Definition isspace (c : ascii) : bool :=
  let n := PyStr.code c in
  ((9 <=? n) && (n <=? 13)) || (n =? 32) || (n =? 133) || (n =? 160).

Fixpoint skip_space (l : list ascii) : list ascii :=
  match l with
  | c :: l' => if isspace c then skip_space l' else l
  | [] => []
  end.

(** The text between the white space: an infinity, a nan or a decimal
    number, and nothing after it. *)
Definition of_stripped (l : list ascii) : option float :=
  match parse_inf_or_nan l with
  | Some (x, []) => Some x
  | Some (_, _ :: _) => None
  | None =>
      match parse_decimal l with
      | Some (x, []) => Some x
      | _ => None
      end
  end.

(** [float(s)]; [None] stands for [ValueError]. *)
Definition of_string (s : string) : option float :=
  match drop_underscores None (list_ascii_of_string s) with
  | None => None
  | Some l =>
      match rev (skip_space (rev (skip_space l))) with
      | [] => None
      | l' => of_stripped l'
      end
  end.

(** A float literal of the program text. *)
Definition literal (s : string) : float :=
  match of_string s with Some x => x | None => S754_nan end.

(** *** Writing a float: [repr(x)] (also [str(x)]) and the [.2f] format *)

(** The magnitude of a finite float [m * 2^e] as a fraction. *)
Definition fraction (m : positive) (e : Z) : Z * Z :=
  if 0 <=? e then (Zpos m * 2 ^ e, 1) else (Zpos m, 2 ^ (- e)).

(** [scale10 (n, d) k] is the fraction [n / d / 10^k]. *)
Definition scale10 (q : Z * Z) (k : Z) : Z * Z :=
  let '(n, d) := q in
  if 0 <=? k then (n, d * 10 ^ k) else (n * 10 ^ (- k), d).

(** The first [p] among [p0, p0 + 1, ...] ([fuel] of them) with
    [n / d < 10^p]. *)
Fixpoint first_above (fuel : nat) (q : Z * Z) (p : Z) : Z :=
  match fuel with
  | O => p
  | S fuel' =>
      let '(n, d) := scale10 q p in
      if n <? d then p else first_above fuel' q (p + 1)
  end.

(** The decimal point position [p] of [n / d > 0]:
    [10^(p-1) <= n / d < 10^p]. *)
Definition decimal_point (m : positive) (e : Z) : Z :=
  let l := Z.log2 (Zpos m) + e in
  first_above 4 (fraction m e) (l * 30103 / 100000 - 1).

(** The one or two [n]-digit decimals next to [m * 2^e] that read back
    as that float, the nearer one first (the even one on a tie), as a
    pair (digits, exponent of the last digit). *)
Definition shortest_at (m : positive) (e : Z) (p : Z) (n : Z) : option (Z * Z) :=
  let x := S754_finite false m e in
  let k := p - n in
  let '(a, b) := scale10 (fraction m e) k in
  let lo := a / b in
  let hi := lo + 1 in
  let ok_lo := eqb (of_decimal false lo k) x in
  let ok_hi := eqb (of_decimal false hi k) x in
  let lo_first :=
    match Z.compare (2 * a) ((2 * lo + 1) * b) with
    | Lt => true
    | Gt => false
    | Eq => Z.even lo
    end in
  match ok_lo, ok_hi with
  | true, true => Some (if lo_first then lo else hi, k)
  | true, false => Some (lo, k)
  | false, true => Some (hi, k)
  | false, false => None
  end.

Fixpoint shortest_from (fuel : nat) (m : positive) (e : Z) (p : Z) (n : Z)
  : Z * Z :=
  match fuel with
  | O => (fst (scale10 (fraction m e) (p - n)) / snd (scale10 (fraction m e) (p - n)), p - n)
  | S fuel' =>
      match shortest_at m e p n with
      | Some r => r
      | None => shortest_from fuel' m e p (n + 1)
      end
  end.

Fixpoint strip_zeros (fuel : nat) (d k : Z) : Z * Z :=
  match fuel with
  | O => (d, k)
  | S fuel' =>
      if (d mod 10 =? 0) && negb (d =? 0) then strip_zeros fuel' (d / 10) (k + 1)
      else (d, k)
  end.

(** The shortest digit string that reads back as [m * 2^e], without
    trailing zeros, and the position of its decimal point. *)
Definition shortest_digits (m : positive) (e : Z) : string * Z :=
  let p := decimal_point m e in
  let '(d, k) := shortest_from 17 m e p 1 in
  let '(d', k') := strip_zeros 20 d k in
  let ds := PyStr.of_Z d' in
  (ds, Z.of_nat (String.length ds) + k').

(** Layout of [repr]: fixed notation when [-4 < decpt <= 16], exponent
    notation otherwise. *)
Definition layout_repr (ds : string) (decpt : Z) : string :=
  let nd := Z.of_nat (String.length ds) in
  if (decpt <=? -4) || (16 <? decpt) then
    let ex := decpt - 1 in
    let mant :=
      match ds with
      | String c EmptyString => ds
      | String c rest => String c ("." ++ rest)
      | EmptyString => ds
      end in
    mant ++ "e" ++ (if ex <? 0 then "-" else "+")
         ++ PyStr.of_Z_padded 2 (Z.abs ex)
  else if decpt <=? 0 then
    "0." ++ PyStr.zeros (Z.to_nat (- decpt)) ++ ds
  else if decpt <? nd then
    substring 0 (Z.to_nat decpt) ds ++ "."
      ++ substring (Z.to_nat decpt) (Z.to_nat (nd - decpt)) ds
  else
    ds ++ PyStr.zeros (Z.to_nat (decpt - nd)) ++ ".0".

(** [repr(x)], which is also [str(x)]. *)
Definition repr (x : float) : string :=
  match x with
  | S754_nan => "nan"
  | S754_infinity neg => if neg then "-inf" else "inf"
  | S754_zero neg => if neg then "-0.0" else "0.0"
  | S754_finite neg m e =>
      let '(ds, decpt) := shortest_digits m e in
      (if neg then "-" else EmptyString) ++ layout_repr ds decpt
  end.

(** [n / d] rounded to the nearest integer, ties to even. *)
Definition round_half_even (n d : Z) : Z :=
  let q := n / d in
  match Z.compare (2 * (n mod d)) d with
  | Lt => q
  | Gt => q + 1
  | Eq => if Z.even q then q else q + 1
  end.

(** [f"{x:.2f}"] *)
Definition format_2f (x : float) : string :=
  match x with
  | S754_nan => "nan"
  | S754_infinity neg => if neg then "-inf" else "inf"
  | S754_zero neg => if neg then "-0.00" else "0.00"
  | S754_finite neg m e =>
      let '(n, d) := fraction m e in
      let c := round_half_even (100 * n) d in
      (if neg then "-" else EmptyString) ++ PyStr.of_Z (c / 100) ++ "."
        ++ PyStr.of_Z_padded 2 (c mod 100)
  end.

End PyFloat.

(** ** Python values

    What [request.get_json()] hands to the handlers, and what they put
    into their JSON answers. A [PDict] lists the items of a dict in
    insertion order; its keys are distinct. *)

#[local] Set Warnings "-register-all".

Inductive pyval : Type :=
| PNone
| PBool (b : bool)
| PInt (n : Z)
| PFloat (x : PyFloat.float)
| PStr (s : string)
| PList (l : list pyval)
| PDict (d : list (string * pyval)).

(** Python exceptions, as far as the handlers tell them apart. [Timeout]
    is [requests.exceptions.Timeout], a subclass of [RequestException];
    [HTTPException] is werkzeug's; [SDKError] is anything raised by the
    PayPal SDK. All of them derive from [Exception]. *)
Inductive exn : Type :=
| AttributeError
| TypeError
| ValueError
| KeyError
| IndexError
| OverflowError
| HTTPException (code : Z)
| Timeout
| RequestException
| SDKError
| OtherException.

Module Py.

(** [bool(v)], the test of [if v] and [not v]. *)
Definition truthy (v : pyval) : bool :=
  match v with
  | PNone => false
  | PBool b => b
  | PInt n => negb (n =? 0)
  | PFloat x => PyFloat.truthy x
  | PStr s => match s with EmptyString => false | _ => true end
  | PList l => match l with [] => false | _ => true end
  | PDict d => match d with [] => false | _ => true end
  end.

Fixpoint lookup {A : Type} (k : string) (d : list (string * A)) : option A :=
  match d with
  | [] => None
  | (k', v) :: d' => if String.eqb k' k then Some v else lookup k d'
  end.

(** [data.get(key, default)]: only a dict has the method. *)
Definition get (data : pyval) (key : string) (default : pyval) : exn + pyval :=
  match data with
  | PDict d => inr (match lookup key d with Some v => v | None => default end)
  | _ => inl AttributeError
  end.

(** [data[key]] for a [str] key. *)
Definition getitem (data : pyval) (key : string) : exn + pyval :=
  match data with
  | PDict d => match lookup key d with Some v => inr v | None => inl KeyError end
  | _ => inl TypeError
  end.

(** [isinstance(v, str)] *)
Definition is_str (v : pyval) : bool :=
  match v with
  | PStr _ => true
  | _ => false
  end.

(** The receiver of a [str] method: anything else has no such
    attribute. *)
Definition str_method (v : pyval) : exn + string :=
  match v with
  | PStr s => inr s
  | _ => inl AttributeError
  end.

(** [v.strip()] *)
Definition strip (v : pyval) : exn + string :=
  match str_method v with
  | inr s => inr (PyStr.strip s)
  | inl e => inl e
  end.

(** [v.split('|')] *)
Definition split (v : pyval) (sep : ascii) : exn + list string :=
  match str_method v with
  | inr s => inr (PyStr.split sep s)
  | inl e => inl e
  end.

(** [a, b = pieces] *)
Definition unpack2 (pieces : list string) : exn + (string * string) :=
  match pieces with
  | [a; b] => inr (a, b)
  | _ => inl ValueError
  end.

(** [float(v)] *)
Definition float (v : pyval) : exn + PyFloat.float :=
  match v with
  | PFloat x => inr x
  | PInt n =>
      match PyFloat.of_Z n with Some x => inr x | None => inl OverflowError end
  | PBool b =>
      match PyFloat.of_Z (if b then 1 else 0) with
      | Some x => inr x
      | None => inl OverflowError
      end
  | PStr s =>
      match PyFloat.of_string s with Some x => inr x | None => inl ValueError end
  | PNone | PList _ | PDict _ => inl TypeError
  end.

Definition printable (c : ascii) : bool :=
  let n := PyStr.code c in
  negb ((n <? 32) || ((127 <=? n) && (n <=? 160)) || (n =? 173)).

Definition repr_char (quote : ascii) (c : ascii) : string :=
  let n := PyStr.code c in
  if Ascii.eqb c quote || Ascii.eqb c PyStr.backslash
  then String PyStr.backslash (String c EmptyString)
  else if n =? 9 then "\t"
  else if n =? 10 then "\n"
  else if n =? 13 then "\r"
  else if printable c then String c EmptyString
  else "\x" ++ String (PyStr.hex_digit (n / 16)) (String (PyStr.hex_digit (n mod 16)) EmptyString).

Fixpoint repr_chars (quote : ascii) (s : string) : string :=
  match s with
  | EmptyString => EmptyString
  | String c s' => repr_char quote c ++ repr_chars quote s'
  end.

(** [repr(s)] for a [str]: single quotes, unless [s] has a single
    quote and no double quote. *)
Definition repr_str (s : string) : string :=
  let quote :=
    if PyStr.contains PyStr.squote s && negb (PyStr.contains PyStr.dquote s)
    then PyStr.dquote else PyStr.squote in
  String quote (repr_chars quote s ++ String quote EmptyString).

(** [repr(v)] *)
Fixpoint repr (v : pyval) : string :=
  match v with
  | PNone => "None"
  | PBool b => if b then "True" else "False"
  | PInt n => PyStr.of_Z n
  | PFloat x => PyFloat.repr x
  | PStr s => repr_str s
  | PList l => "[" ++ PyStr.join ", " (map repr l) ++ "]"
  | PDict d =>
      "{" ++ PyStr.join ", "
               (map (fun kv => match kv with
                               | (k, v') => repr_str k ++ ": " ++ repr v'
                               end) d)
          ++ "}"
  end.

(** [str(v)], which is what an f-string field [{v}] inserts. *)
Definition str (v : pyval) : string :=
  match v with
  | PStr s => s
  | _ => repr v
  end.

End Py.

(** ** The outside world

    The handlers talk to two services: the Discord webhook, through
    [requests.post], and PayPal, through [paypalrestsdk.Payment]. A
    [world] answers each call; every call made is recorded as an
    [event]. *)

(** One entry of ["items"] of the transaction sent by [create_payment]. *)
Record item : Type := {
  item_name : pyval;
  item_sku : string;
  item_price : string;
  item_currency : string;
  item_quantity : Z;
  item_description : string
}.

(** The attributes [create_payment] gives to [paypalrestsdk.Payment]
    (one transaction). *)
Record payment_intent : Type := {
  intent : string;
  payment_method : string;
  return_url : string;
  cancel_url : string;
  items : list item;
  amount_total : string;
  amount_currency : string;
  description : string;
  custom : string
}.

(** A hyperlink of a created payment. *)
Record link : Type := { rel : string; href : string }.

(** What [execute_payment] reads of a transaction of a payment. *)
Record transaction : Type := {
  transaction_custom : pyval;
  transaction_total : pyval
}.

(** A payment as found at the provider. *)
Record payment : Type := {
  payment_ident : pyval;
  transactions : list transaction
}.

(** The answer to [requests.post]. *)
Record http_response : Type := { status_code : Z; text : string }.

Inductive event : Type :=
| WebhookPost (url : string) (message : pyval)
| PaymentCreate (p : payment_intent)
| PaymentFind (id : string)
| PaymentExecute (p : payment) (payer_id : string).

(** What [payment.create()] leaves behind: [True] and the payment
    merged with the provider's answer, of which the handler reads
    [payment.links] (absent when the answer has no links: the attribute
    is then [None]); or [False]. *)
Inductive created : Type :=
| Accepted (links : option (list link))
| Rejected.

Record world : Type := {
  (** [requests.post(url, json=message, timeout=10)] *)
  requests_post : string -> pyval -> exn + http_response;
  (** [payment.create()] *)
  payment_create : payment_intent -> exn + created;
  (** [paypalrestsdk.Payment.find(id)] *)
  payment_find : string -> exn + payment;
  (** [payment.execute({"payer_id": payer_id})]: the payment with the
      attributes of the provider's answer merged in, or [None] when the
      provider rejects (the method returns [False]). *)
  payment_execute : payment -> string -> exn + option payment
}.

(** The process-wide configuration read from the environment. *)
Record config : Type := {
  DISCORD_WEBHOOK : string
}.

(** What Flask gives a handler. [json_body] is the parsed body, [None]
    when the body is not valid JSON. *)
Record request : Type := {
  is_json : bool;
  json_body : option pyval;
  args : list (string * string);
  url_root : string
}.

(** What a view function returns: [jsonify(...)] or a string, with a
    status (200 when the source gives none), or nothing at all. *)
Inductive body : Type :=
| Json (v : pyval)
| Text (s : string).

Inductive response : Type :=
| Response (b : body) (status : Z)
| NoResponse.

Definition status_of (r : response) : Z :=
  match r with
  | Response _ status => status
  | NoResponse => 0
  end.

(** ** The monad of handlers: exceptions and the trace of calls *)

Definition trace : Type := list event.

Definition M (A : Type) : Type := trace -> (exn + A) * trace.

Definition ret {A : Type} (a : A) : M A := fun t => (inr a, t).

Definition bind {A B : Type} (m : M A) (k : A -> M B) : M B :=
  fun t =>
    match m t with
    | (inr a, t') => k a t'
    | (inl e, t') => (inl e, t')
    end.

Definition raise {A : Type} (e : exn) : M A := fun t => (inl e, t).

(** A pure step that may raise. *)
Definition lift {A : Type} (r : exn + A) : M A := fun t => (r, t).

(** A call to the outside world: recorded, then answered. *)
Definition call {A : Type} (ev : event) (answer : exn + A) : M A :=
  fun t => (answer, (t ++ [ev])%list).

(** [try: m  except ...: h e] *)
Definition try_except {A : Type} (m : M A) (h : exn -> M A) : M A :=
  fun t =>
    match m t with
    | (inl e, t') => h e t'
    | r => r
    end.

Declare Scope py_scope.
Delimit Scope py_scope with py.
Notation "x <- m ;; k" := (bind m (fun x => k))
  (at level 61, m at next level, right associativity) : py_scope.
Notation "' pat <- m ;; k" := (bind m (fun x => match x with pat => k end))
  (at level 61, pat pattern, m at next level, right associativity) : py_scope.
Local Open Scope py_scope.

(** Running a handler on a request: its answer and the calls it made. *)
Definition run {A : Type} (m : M A) : (exn + A) * trace := m [].

(** ** The product catalog *)

Record product : Type := {
  price : PyFloat.float;
  product_description : string
}.

Definition PRODUCTS : list (string * product) :=
  [ ("Mod",
     {| price := PyFloat.literal "3.00";
        product_description :=
          "Get Fly, Larger Anti-Raid Zone, Teleport and Mod Kits" |});
    ("Mod+",
     {| price := PyFloat.literal "7.00";
        product_description :=
          "Get Fly, XL Anti-Raid Zone, Teleport Players and Admin Kits w/Command Access" |});
    ("Hardcore VIP 1 Month",
     {| price := PyFloat.literal "3.00";
        product_description := "VIP Kit and Rank for 1 month" |});
    ("Hardcore VIP Perma",
     {| price := PyFloat.literal "30.00";
        product_description := "VIP Kit and Rank with a server Tag" |});
    ("Ultra Server Rank Package",
     {| price := PyFloat.literal "50.00";
        product_description :=
          "Mod+ on Oxide Build-A-Base, Perma Hardcore VIP, Ultra Tag, 3 Custom Tag Roll Tokens, 2 Custom Tag Token" |}) ].

(** [v in PRODUCTS]: the keys are strings, so no other hashable value is
    one of them; a list or a dict cannot be hashed. *)
Definition in_PRODUCTS (v : pyval) : exn + bool :=
  match v with
  | PStr s => inr (match Py.lookup s PRODUCTS with Some _ => true | None => false end)
  | PList _ | PDict _ => inl TypeError
  | _ => inr false
  end.

(** [PRODUCTS[v]] *)
Definition PRODUCTS_getitem (v : pyval) : exn + product :=
  match v with
  | PStr s => match Py.lookup s PRODUCTS with Some p => inr p | None => inl KeyError end
  | PList _ | PDict _ => inl TypeError
  | _ => inl KeyError
  end.

(** ** The handlers *)

(** The decorative symbols of the message templates, as the source file
    has them. *)
Definition mark_cart : string := "üõí".
Definition mark_user : string := "üë§".
Definition mark_box : string := "üì¶".
Definition mark_money : string := "üí∞".
Definition mark_card : string := "üí≥".
Definition mark_id : string := "üÜî".
Definition mark_check : string := "‚úÖ".
Definition mark_back : string := "‚Üê".

Definition json_error (msg : string) : body :=
  Json (PDict [("error", PStr msg)]).

Definition required_fields : list string := ["username"; "item"; "price"].

(** [[field for field in fields if not data.get(field)]] *)
Fixpoint missing (data : pyval) (fields : list string) : exn + list string :=
  match fields with
  | [] => inr []
  | field :: rest =>
      match Py.get data field PNone with
      | inl e => inl e
      | inr v =>
          match missing data rest with
          | inl e => inl e
          | inr l => inr (if Py.truthy v then l else field :: l)
          end
      end
  end.

(** [request.get_json()]: Flask raises [UnsupportedMediaType] (415) when
    the content type is not JSON and [BadRequest] (400) when the body
    does not parse. (Older Flask versions return [None] in the first
    case; the handlers then raise at the first use of the data, inside
    the same [try].) *)
Definition get_json (req : request) : M pyval :=
  if is_json req then
    match json_body req with
    | Some data => ret data
    | None => raise (HTTPException 400)
    end
  else raise (HTTPException 415).

(** [request.args.get(key)] *)
Definition args_get (req : request) (key : string) : option string :=
  Py.lookup key (args req).

(** [not v] for the result of [request.args.get]. *)
Definition absent_or_empty (v : option string) : bool :=
  match v with
  | None => true
  | Some s => negb (Py.truthy (PStr s))
  end.

Definition purchase_message (username item : string) (price : PyFloat.float) : pyval :=
  PDict [("content",
          PStr (mark_cart ++ " **Purchase Made!**" ++ PyStr.newline
                ++ mark_user ++ " **Username:** " ++ username ++ PyStr.newline
                ++ mark_box ++ " **Item:** " ++ item ++ PyStr.newline
                ++ mark_money ++ " **Price:** $" ++ PyFloat.format_2f price))].

Definition purchase_success (username item : string) (price : PyFloat.float) : response :=
  Response
    (Json (PDict [("status", PStr "success");
                  ("message", PStr "Purchase recorded and Discord notification sent!");
                  ("data", PDict [("username", PStr username);
                                  ("item", PStr item);
                                  ("price", PFloat price)])]))
    200.

(** The answer of the catch-all of [handle_purchase]. *)
Definition purchase_internal_error : response :=
  Response
    (Json (PDict
       [("error", PStr "Internal server error");
        ("message", PStr "An unexpected error occurred while processing the purchase")]))
    500.

(** The answer of [handle_purchase] to missing fields. *)
Definition purchase_missing (fields : list string) : response :=
  Response
    (Json (PDict
       [("error", PStr ("Missing required fields: " ++ PyStr.join ", " fields));
        ("required_fields", PList (map PStr required_fields))]))
    400.

(** The [try] around [float(price)]: a response when the price is
    refused, the price otherwise. *)
Definition coerce_price (price : pyval) : M (response + PyFloat.float) :=
  try_except
    (price' <- lift (Py.float price) ;;
     if PyFloat.ltb0 price'
     then ret (inl (Response (json_error "Price cannot be negative") 400))
     else ret (inr price'))
    (fun e =>
       match e with
       | ValueError | TypeError =>
           ret (inl (Response (json_error "Price must be a valid number") 400))
       | _ => raise e
       end).

(** [handle_purchase], route [POST /purchase]. *)
Definition handle_purchase (cfg : config) (w : world) (req : request) : M response :=
  try_except
    (if negb (is_json req) then
       ret (Response (json_error "Content-Type must be application/json") 400)
     else
       data <- get_json req ;;
       missing_fields <- lift (missing data required_fields) ;;
       match missing_fields with
       | _ :: _ =>
           ret (purchase_missing missing_fields)
       | [] =>
           u <- lift (Py.getitem data "username") ;;
           username <- lift (Py.strip u) ;;
           i <- lift (Py.getitem data "item") ;;
           item <- lift (Py.strip i) ;;
           price <- lift (Py.getitem data "price") ;;
           if negb (Py.truthy (PStr username)) then
             ret (Response (json_error "Username cannot be empty") 400)
           else if negb (Py.truthy (PStr item)) then
             ret (Response (json_error "Item cannot be empty") 400)
           else
             checked <- coerce_price price ;;
             match checked with
             | inl refused => ret refused
             | inr price =>
                 if negb (Py.truthy (PStr (DISCORD_WEBHOOK cfg))) then
                   ret (Response
                          (Json (PDict
                             [("error", PStr "Discord webhook not configured");
                              ("message", PStr "Please set DISCORD_WEBHOOK_URL environment variable")]))
                          500)
                 else
                   let discord_message := purchase_message username item price in
                   try_except
                     (response <- call (WebhookPost (DISCORD_WEBHOOK cfg) discord_message)
                                       (requests_post w (DISCORD_WEBHOOK cfg) discord_message) ;;
                      if (status_code response =? 200) || (status_code response =? 204)
                      then ret (purchase_success username item price)
                      else
                        ret (Response
                               (Json (PDict
                                  [("error", PStr "Failed to send Discord notification");
                                   ("message", PStr ("Discord API returned status "
                                                     ++ PyStr.of_Z (status_code response)))]))
                               500))
                     (fun e =>
                        match e with
                        | Timeout =>
                            ret (Response
                                   (Json (PDict
                                      [("error", PStr "Discord notification timeout");
                                       ("message", PStr "The Discord webhook request timed out")]))
                                   500)
                        | RequestException =>
                            ret (Response
                                   (Json (PDict
                                      [("error", PStr "Failed to send Discord notification");
                                       ("message", PStr "Could not connect to Discord webhook")]))
                                   500)
                        | _ => raise e
                        end)
             end
       end)
    (fun _ => ret purchase_internal_error).

(** The ["custom"] field of the transaction:
    [f"{username}|{product_name}"]. *)
Definition custom_metadata (username product_name : pyval) : string :=
  Py.str username ++ "|" ++ Py.str product_name.

(** What [execute_payment] makes of the field:
    [username, product_name = custom_data.split('|')]. *)
Definition decode_metadata (custom_data : pyval) : exn + (string * string) :=
  match Py.split custom_data "|" with
  | inr pieces => Py.unpack2 pieces
  | inl e => inl e
  end.

(** The dict given to [paypalrestsdk.Payment] by [create_payment]. *)
Definition build_intent (req : request) (product_name username : pyval)
    (product : product) (sku : string) : payment_intent :=
  {| intent := "sale";
     payment_method := "paypal";
     return_url := url_root req ++ "execute-payment";
     cancel_url := url_root req ++ "cancel-payment";
     items :=
       [ {| item_name := product_name;
            item_sku := sku;
            item_price := PyFloat.repr (price product);
            item_currency := "USD";
            item_quantity := 1;
            item_description := product_description product |} ];
     amount_total := PyFloat.repr (price product);
     amount_currency := "USD";
     description := Py.str product_name ++ " purchase for " ++ Py.str username;
     custom := custom_metadata username product_name |}.

(** [for link in payment.links: if link.rel == "approval_url": return ...] *)
Fixpoint approval_response (links : list link) : response :=
  match links with
  | [] => NoResponse
  | l :: rest =>
      if String.eqb (rel l) "approval_url"
      then Response (Json (PDict [("approval_url", PStr (href l))])) 200
      else approval_response rest
  end.

(** [for link in payment.links]: what is iterated; [None] is not
    iterable. *)
Definition iterate (payment_links : option (list link)) : exn + list link :=
  match payment_links with
  | Some links => inr links
  | None => inl TypeError
  end.

(** [create_payment], route [POST /create-payment]. *)
Definition create_payment (cfg : config) (w : world) (req : request) : M response :=
  try_except
    (data <- get_json req ;;
     product_name <- lift (Py.get data "product" PNone) ;;
     username <- lift (Py.get data "username" (PStr "Anonymous")) ;;
     invalid <- (if negb (Py.truthy product_name) then ret true
                 else known <- lift (in_PRODUCTS product_name) ;; ret (negb known)) ;;
     if (invalid : bool) then
       ret (Response (json_error "Invalid product") 400)
     else
       product <- lift (PRODUCTS_getitem product_name) ;;
       lowered <- lift (Py.str_method product_name) ;;
       let sku := PyStr.replace " " "_" (PyStr.lower lowered) in
       let payment := build_intent req product_name username product sku in
       created <- call (PaymentCreate payment) (payment_create w payment) ;;
       match created with
       | Accepted payment_links =>
           links <- lift (iterate payment_links) ;;
           ret (approval_response links)
       | Rejected => ret (Response (json_error "Payment creation failed") 500)
       end)
    (fun _ => ret (Response (json_error "Internal server error") 500)).

Definition spaces (n : nat) : string := string_of_list_ascii (repeat " "%char n).

Definition quoted (s : string) : string :=
  String PyStr.dquote (s ++ String PyStr.dquote EmptyString).

(** The page returned after a successful payment. *)
Definition success_page (username product_name : string) (price : PyFloat.float)
  : string :=
  PyStr.newline
  ++ spaces 12 ++ "<html>" ++ PyStr.newline
  ++ spaces 12 ++ "<head><title>Payment Successful - The Scrap Shop</title></head>"
  ++ PyStr.newline
  ++ spaces 12 ++ "<body style="
  ++ quoted "font-family: Arial, sans-serif; text-align: center; padding: 50px; background: #1a1a1a; color: white;"
  ++ ">" ++ PyStr.newline
  ++ spaces 16 ++ "<h1 style=" ++ quoted "color: #28a745;" ++ ">" ++ mark_check
  ++ " Payment Successful!</h1>" ++ PyStr.newline
  ++ spaces 16 ++ "<p>Thank you <strong>" ++ username ++ "</strong>!</p>"
  ++ PyStr.newline
  ++ spaces 16 ++ "<p>Your purchase of <strong>" ++ product_name
  ++ "</strong> for <strong>$" ++ PyFloat.format_2f price
  ++ "</strong> has been processed.</p>" ++ PyStr.newline
  ++ spaces 16 ++ "<p>You will receive your items in-game shortly.</p>"
  ++ PyStr.newline
  ++ spaces 16 ++ "<a href=" ++ quoted "/" ++ " style="
  ++ quoted "color: #007bff; text-decoration: none;" ++ ">" ++ mark_back
  ++ " Back to Shop</a>" ++ PyStr.newline
  ++ spaces 12 ++ "</body>" ++ PyStr.newline
  ++ spaces 12 ++ "</html>" ++ PyStr.newline
  ++ spaces 12.

(** The notification of a successful payment; its line breaks are the
    two characters backslash and n, as the source writes them. *)
Definition payment_message (username product_name : string)
    (price : PyFloat.float) (id : pyval) : pyval :=
  PDict [("content",
          PStr (mark_money ++ " **Payment Successful!**\n"
                ++ mark_user ++ " **Username:** " ++ username ++ "\n"
                ++ mark_box ++ " **Product:** " ++ product_name ++ "\n"
                ++ mark_card ++ " **Amount:** $" ++ PyFloat.format_2f price ++ "\n"
                ++ mark_id ++ " **PayPal Transaction:** " ++ Py.str id))].

(** [payment.transactions[0]] *)
Definition first_transaction (p : payment) : exn + transaction :=
  match transactions p with
  | t :: _ => inr t
  | [] => inl IndexError
  end.

(** The answers of [execute_payment]. *)
Definition missing_payment_info : response :=
  Response (Text "Payment execution failed: Missing payment information") 400.

Definition payment_execution_failed : response :=
  Response (Text "Payment execution failed") 500.

Definition payment_execution_error : response :=
  Response (Text "Payment execution error") 500.

(** The text of a query parameter that is present. *)
Definition text_of (v : option string) : string :=
  match v with
  | Some s => s
  | None => EmptyString
  end.

(** The notification sent by [execute_payment]: any failure of it is
    dropped ([except: pass]). *)
Definition notify_payment (cfg : config) (w : world) (discord_message : pyval)
  : M unit :=
  try_except
    (_ <- call (WebhookPost (DISCORD_WEBHOOK cfg) discord_message)
               (requests_post w (DISCORD_WEBHOOK cfg) discord_message) ;;
     ret tt)
    (fun _ => ret tt).

(** [execute_payment], route [GET /execute-payment]. *)
Definition execute_payment (cfg : config) (w : world) (req : request) : M response :=
  try_except
    (let payment_id := args_get req "paymentId" in
     let payer_id := args_get req "PayerID" in
     if absent_or_empty payment_id || absent_or_empty payer_id then
       ret missing_payment_info
     else
       payment <- call (PaymentFind (text_of payment_id))
                       (payment_find w (text_of payment_id)) ;;
       executed <- call (PaymentExecute payment (text_of payer_id))
                        (payment_execute w payment (text_of payer_id)) ;;
       match executed with
       | Some payment =>
           t <- lift (first_transaction payment) ;;
           let custom_data := transaction_custom t in
           '(username, product_name) <- lift (decode_metadata custom_data) ;;
           t' <- lift (first_transaction payment) ;;
           price <- lift (Py.float (transaction_total t')) ;;
           _ <- (if Py.truthy (PStr (DISCORD_WEBHOOK cfg)) then
                   notify_payment cfg w
                     (payment_message username product_name price (payment_ident payment))
                 else ret tt) ;;
           ret (Response (Text (success_page username product_name price)) 200)
       | None =>
           ret payment_execution_failed
       end)
    (fun _ => ret payment_execution_error).

(** ** Vocabulary of the statements *)

(** A JSON request with the object [d] as its body. *)
Definition json_request (d : list (string * pyval)) (root : string) : request :=
  {| is_json := true; json_body := Some (PDict d); args := []; url_root := root |}.

(** The ["error"] text of a JSON error response. *)
Definition error_text (r : response) : option string :=
  match r with
  | Response (Json (PDict d)) _ =>
      match Py.lookup "error" d with
      | Some (PStr msg) => Some msg
      | _ => None
      end
  | _ => None
  end.

(** A message mentions a word when its lower-cased text contains it. *)
Definition mentions (word msg : string) : bool :=
  PyStr.has_substring word (PyStr.lower msg).

(** The calls of a trace that go to the payment provider. *)
Definition provider_call (ev : event) : bool :=
  match ev with
  | WebhookPost _ _ => false
  | PaymentCreate _ | PaymentFind _ | PaymentExecute _ _ => true
  end.

(** The calls of a trace that go to the webhook. *)
Definition webhook_call (ev : event) : bool :=
  match ev with
  | WebhookPost _ _ => true
  | _ => false
  end.

(** The provider intent of the scenario [create_payment("Mod", "alice")]
    as the specification writes it: one line item with these five
    fields, the total and the metadata. *)
Definition spec_scenario_intent (p : payment_intent) : Prop :=
  (exists it,
      items p = [it]
      /\ item_name it = PStr "Mod" /\ item_sku it = "mod"
      /\ item_price it = "3.00" /\ item_currency it = "USD"
      /\ item_quantity it = 1)
  /\ amount_total p = "3.00"
  /\ custom p = "alice|Mod".

(** The paths through [execute_payment]: for each, the condition under
    which it is taken, the answer, and the calls made. *)
Inductive execute_path (cfg : config) (w : world) (req : request)
  : (exn + response) * trace -> Prop :=
| path_missing :
    absent_or_empty (args_get req "paymentId")
    || absent_or_empty (args_get req "PayerID") = true ->
    execute_path cfg w req (inr missing_payment_info, [])
| path_find_raises id payer e :
    args_get req "paymentId" = Some id -> args_get req "PayerID" = Some payer ->
    payment_find w id = inl e ->
    execute_path cfg w req (inr payment_execution_error, [PaymentFind id])
| path_execute_raises id payer p e :
    args_get req "paymentId" = Some id -> args_get req "PayerID" = Some payer ->
    payment_find w id = inr p ->
    payment_execute w p payer = inl e ->
    execute_path cfg w req
      (inr payment_execution_error, [PaymentFind id; PaymentExecute p payer])
| path_rejected id payer p :
    args_get req "paymentId" = Some id -> args_get req "PayerID" = Some payer ->
    payment_find w id = inr p ->
    payment_execute w p payer = inr None ->
    execute_path cfg w req
      (inr payment_execution_failed, [PaymentFind id; PaymentExecute p payer])
| path_no_transaction id payer p p' :
    args_get req "paymentId" = Some id -> args_get req "PayerID" = Some payer ->
    payment_find w id = inr p ->
    payment_execute w p payer = inr (Some p') ->
    transactions p' = [] ->
    execute_path cfg w req
      (inr payment_execution_error, [PaymentFind id; PaymentExecute p payer])
| path_malformed_metadata id payer p p' t rest e :
    args_get req "paymentId" = Some id -> args_get req "PayerID" = Some payer ->
    payment_find w id = inr p ->
    payment_execute w p payer = inr (Some p') ->
    transactions p' = t :: rest ->
    decode_metadata (transaction_custom t) = inl e ->
    execute_path cfg w req
      (inr payment_execution_error, [PaymentFind id; PaymentExecute p payer])
| path_bad_total id payer p p' t rest names e :
    args_get req "paymentId" = Some id -> args_get req "PayerID" = Some payer ->
    payment_find w id = inr p ->
    payment_execute w p payer = inr (Some p') ->
    transactions p' = t :: rest ->
    decode_metadata (transaction_custom t) = inr names ->
    Py.float (transaction_total t) = inl e ->
    execute_path cfg w req
      (inr payment_execution_error, [PaymentFind id; PaymentExecute p payer])
| path_paid_silently id payer p p' t rest username product_name price :
    args_get req "paymentId" = Some id -> args_get req "PayerID" = Some payer ->
    payment_find w id = inr p ->
    payment_execute w p payer = inr (Some p') ->
    transactions p' = t :: rest ->
    decode_metadata (transaction_custom t) = inr (username, product_name) ->
    Py.float (transaction_total t) = inr price ->
    DISCORD_WEBHOOK cfg = EmptyString ->
    execute_path cfg w req
      (inr (Response (Text (success_page username product_name price)) 200),
       [PaymentFind id; PaymentExecute p payer])
| path_paid_notified id payer p p' t rest username product_name price :
    args_get req "paymentId" = Some id -> args_get req "PayerID" = Some payer ->
    payment_find w id = inr p ->
    payment_execute w p payer = inr (Some p') ->
    transactions p' = t :: rest ->
    decode_metadata (transaction_custom t) = inr (username, product_name) ->
    Py.float (transaction_total t) = inr price ->
    DISCORD_WEBHOOK cfg <> EmptyString ->
    execute_path cfg w req
      (inr (Response (Text (success_page username product_name price)) 200),
       [PaymentFind id; PaymentExecute p payer;
        WebhookPost (DISCORD_WEBHOOK cfg)
          (payment_message username product_name price (payment_ident p'))]).

(** ** Sample data for the scenarios *)

Definition sample_config : config :=
  {| DISCORD_WEBHOOK := "https://discord.example/api/webhooks/1/abc" |}.

Definition sample_payment (custom_data total : pyval) : payment :=
  {| payment_ident := PStr "PAY-1";
     transactions :=
       [ {| transaction_custom := custom_data; transaction_total := total |} ] |}.

(** A world where the provider keeps [stored] under every id, answers
    [execute] with [executed], accepts every created payment, and the
    webhook answers [posted]. *)
Definition sample_world (stored : payment) (executed : exn + option payment)
    (posted : exn + http_response) : world :=
  {| requests_post := fun _ _ => posted;
     payment_create := fun _ =>
       inr (Accepted
              (Some [ {| rel := "self"; href := "https://api.example/payment/PAY-1" |};
                      {| rel := "approval_url"; href := "https://www.example/approve/PAY-1" |} ]));
     payment_find := fun _ => inr stored;
     payment_execute := fun _ _ => executed |}.

Definition no_content : http_response := {| status_code := 204; text := EmptyString |}.

Definition paid_alice_mod : payment := sample_payment (PStr "alice|Mod") (PStr "3.0").

Definition happy_world : world :=
  sample_world paid_alice_mod (inr (Some paid_alice_mod)) (inr no_content).

(** The redirect of the provider back to [/execute-payment]. *)
Definition callback_request (query : list (string * string)) : request :=
  {| is_json := false; json_body := None; args := query;
     url_root := "https://shop.example/" |}.

(** The intent built for ["Mod"] and ["alice"]. *)
Definition mod_alice_intent (root : string) : payment_intent :=
  {| intent := "sale";
     payment_method := "paypal";
     return_url := root ++ "execute-payment";
     cancel_url := root ++ "cancel-payment";
     items :=
       [ {| item_name := PStr "Mod";
            item_sku := "mod";
            item_price := "3.0";
            item_currency := "USD";
            item_quantity := 1;
            item_description :=
              "Get Fly, Larger Anti-Raid Zone, Teleport and Mod Kits" |} ];
     amount_total := "3.0";
     amount_currency := "USD";
     description := "Mod purchase for alice";
     custom := "alice|Mod" |}.

Definition mod_alice_request (root : string) : request :=
  json_request [("product", PStr "Mod"); ("username", PStr "alice")] root.

(** The requests of the [/purchase] scenarios. *)
Definition empty_username_request (root : string) : request :=
  json_request [("username", PStr EmptyString); ("item", PStr "Mod"); ("price", PInt 3)]
               root.

Definition zero_price_request (root : string) : request :=
  json_request [("username", PStr "bob"); ("item", PStr "Mod"); ("price", PInt 0)]
               root.

Definition zero_username_request (root : string) : request :=
  json_request [("username", PInt 0); ("item", PStr "Mod"); ("price", PInt 3)]
               root.

(** ** The remaining answers of the application *)

(** [internal_error], the handler registered for status 500. *)
Definition internal_error : response :=
  Response
    (Json (PDict [("error", PStr "Internal server error");
                  ("message", PStr "An unexpected error occurred")]))
    500.

(** What Flask makes of the value a view returns, outside debug mode
    ([app.run(debug=False)]): a view that returns nothing makes
    [make_response] raise, and the exception goes to the handler
    registered for status 500. *)
Definition finalize_request (r : response) : response :=
  match r with
  | NoResponse => internal_error
  | Response _ _ => r
  end.

(** ** The paths through [handle_purchase] and [create_payment] *)

(** [s.count(sep)] *)
Fixpoint count_char (sep : ascii) (s : string) : nat :=
  match s with
  | EmptyString => O
  | String c s' => (if Ascii.eqb c sep then 1 else 0) + count_char sep s'
  end.

(** The body is a JSON object in which the three required fields are
    present and true in a test. *)
Definition required_present (req : request) (u i p : pyval) : Prop :=
  exists d,
    is_json req = true /\ json_body req = Some (PDict d)
    /\ Py.lookup "username" d = Some u /\ Py.lookup "item" d = Some i
    /\ Py.lookup "price" d = Some p
    /\ Py.truthy u = true /\ Py.truthy i = true /\ Py.truthy p = true.

(** Moreover the two names are text and not blank: [username] and
    [item] are what is left after trimming. *)
Definition names_given (req : request) (username item : string) (p : pyval) : Prop :=
  exists us its,
    required_present req (PStr us) (PStr its) p
    /\ username = PyStr.strip us /\ item = PyStr.strip its
    /\ username <> EmptyString /\ item <> EmptyString.

(** Moreover the price reads as the float [x], which is not below zero. *)
Definition purchase_checked (req : request) (username item : string)
    (x : PyFloat.float) : Prop :=
  exists p,
    names_given req username item p
    /\ Py.float p = inr x /\ PyFloat.ltb0 x = false.

Definition purchase_not_configured : response :=
  Response
    (Json (PDict
       [("error", PStr "Discord webhook not configured");
        ("message", PStr "Please set DISCORD_WEBHOOK_URL environment variable")]))
    500.

Definition purchase_bad_status (code : Z) : response :=
  Response
    (Json (PDict
       [("error", PStr "Failed to send Discord notification");
        ("message", PStr ("Discord API returned status " ++ PyStr.of_Z code))]))
    500.

Definition purchase_timeout : response :=
  Response
    (Json (PDict
       [("error", PStr "Discord notification timeout");
        ("message", PStr "The Discord webhook request timed out")]))
    500.

Definition purchase_transport_error : response :=
  Response
    (Json (PDict
       [("error", PStr "Failed to send Discord notification");
        ("message", PStr "Could not connect to Discord webhook")]))
    500.

(** The paths through [handle_purchase]: the condition, the answer and
    the calls of each. *)
Inductive purchase_path (cfg : config) (w : world) (req : request)
  : (exn + response) * trace -> Prop :=
| purchase_not_json :
    is_json req = false ->
    purchase_path cfg w req
      (inr (Response (json_error "Content-Type must be application/json") 400), [])
| purchase_bad_body :
    is_json req = true -> json_body req = None ->
    purchase_path cfg w req (inr purchase_internal_error, [])
| purchase_not_object data :
    is_json req = true -> json_body req = Some data ->
    (forall d, data <> PDict d) ->
    purchase_path cfg w req (inr purchase_internal_error, [])
| purchase_fields_missing d fields :
    is_json req = true -> json_body req = Some (PDict d) ->
    missing (PDict d) required_fields = inr fields -> fields <> [] ->
    purchase_path cfg w req (inr (purchase_missing fields), [])
| purchase_username_not_text u i p :
    required_present req u i p -> Py.is_str u = false ->
    purchase_path cfg w req (inr purchase_internal_error, [])
| purchase_item_not_text u i p :
    required_present req u i p -> Py.is_str u = true -> Py.is_str i = false ->
    purchase_path cfg w req (inr purchase_internal_error, [])
| purchase_blank_username us its p :
    required_present req (PStr us) (PStr its) p ->
    PyStr.strip us = EmptyString ->
    purchase_path cfg w req
      (inr (Response (json_error "Username cannot be empty") 400), [])
| purchase_blank_item us its p :
    required_present req (PStr us) (PStr its) p ->
    PyStr.strip us <> EmptyString -> PyStr.strip its = EmptyString ->
    purchase_path cfg w req
      (inr (Response (json_error "Item cannot be empty") 400), [])
| purchase_price_invalid username item p e :
    names_given req username item p ->
    Py.float p = inl e -> e = ValueError \/ e = TypeError ->
    purchase_path cfg w req
      (inr (Response (json_error "Price must be a valid number") 400), [])
| purchase_price_raises username item p e :
    names_given req username item p ->
    Py.float p = inl e -> e <> ValueError -> e <> TypeError ->
    purchase_path cfg w req (inr purchase_internal_error, [])
| purchase_price_negative username item p x :
    names_given req username item p ->
    Py.float p = inr x -> PyFloat.ltb0 x = true ->
    purchase_path cfg w req
      (inr (Response (json_error "Price cannot be negative") 400), [])
| purchase_unconfigured username item x :
    purchase_checked req username item x ->
    DISCORD_WEBHOOK cfg = EmptyString ->
    purchase_path cfg w req (inr purchase_not_configured, [])
| purchase_notified username item x answer :
    purchase_checked req username item x ->
    DISCORD_WEBHOOK cfg <> EmptyString ->
    requests_post w (DISCORD_WEBHOOK cfg) (purchase_message username item x)
    = inr answer ->
    status_code answer = 200 \/ status_code answer = 204 ->
    purchase_path cfg w req
      (inr (purchase_success username item x),
       [WebhookPost (DISCORD_WEBHOOK cfg) (purchase_message username item x)])
| purchase_refused_by_webhook username item x answer :
    purchase_checked req username item x ->
    DISCORD_WEBHOOK cfg <> EmptyString ->
    requests_post w (DISCORD_WEBHOOK cfg) (purchase_message username item x)
    = inr answer ->
    status_code answer <> 200 -> status_code answer <> 204 ->
    purchase_path cfg w req
      (inr (purchase_bad_status (status_code answer)),
       [WebhookPost (DISCORD_WEBHOOK cfg) (purchase_message username item x)])
| purchase_webhook_timeout username item x :
    purchase_checked req username item x ->
    DISCORD_WEBHOOK cfg <> EmptyString ->
    requests_post w (DISCORD_WEBHOOK cfg) (purchase_message username item x)
    = inl Timeout ->
    purchase_path cfg w req
      (inr purchase_timeout,
       [WebhookPost (DISCORD_WEBHOOK cfg) (purchase_message username item x)])
| purchase_webhook_unreachable username item x :
    purchase_checked req username item x ->
    DISCORD_WEBHOOK cfg <> EmptyString ->
    requests_post w (DISCORD_WEBHOOK cfg) (purchase_message username item x)
    = inl RequestException ->
    purchase_path cfg w req
      (inr purchase_transport_error,
       [WebhookPost (DISCORD_WEBHOOK cfg) (purchase_message username item x)])
| purchase_webhook_raises username item x e :
    purchase_checked req username item x ->
    DISCORD_WEBHOOK cfg <> EmptyString ->
    requests_post w (DISCORD_WEBHOOK cfg) (purchase_message username item x)
    = inl e ->
    e <> Timeout -> e <> RequestException ->
    purchase_path cfg w req
      (inr purchase_internal_error,
       [WebhookPost (DISCORD_WEBHOOK cfg) (purchase_message username item x)]).

Definition create_internal_error : response :=
  Response (json_error "Internal server error") 500.

(** The body is a JSON object whose ["product"] is the name of a product
    of the catalog; [username] is its ["username"], or the default. *)
Definition product_chosen (req : request) (name : string) (pr : product)
    (username : pyval) : Prop :=
  exists d,
    is_json req = true /\ json_body req = Some (PDict d)
    /\ Py.lookup "product" d = Some (PStr name)
    /\ name <> EmptyString
    /\ Py.lookup name PRODUCTS = Some pr
    /\ Py.get (PDict d) "username" (PStr "Anonymous") = inr username.

(** The payment that [create_payment] asks the provider to create. *)
Definition intent_for (req : request) (name : string) (pr : product)
    (username : pyval) : payment_intent :=
  build_intent req (PStr name) username pr
    (PyStr.replace " " "_" (PyStr.lower name)).

(** The paths through [create_payment]. *)
Inductive create_path (cfg : config) (w : world) (req : request)
  : (exn + response) * trace -> Prop :=
| create_no_json :
    is_json req = false \/ json_body req = None ->
    create_path cfg w req (inr create_internal_error, [])
| create_not_object data :
    is_json req = true -> json_body req = Some data ->
    (forall d, data <> PDict d) ->
    create_path cfg w req (inr create_internal_error, [])
| create_invalid_product d product_name :
    is_json req = true -> json_body req = Some (PDict d) ->
    Py.get (PDict d) "product" PNone = inr product_name ->
    Py.truthy product_name = false \/ in_PRODUCTS product_name = inr false ->
    create_path cfg w req (inr (Response (json_error "Invalid product") 400), [])
| create_unhashable_product d product_name e :
    is_json req = true -> json_body req = Some (PDict d) ->
    Py.get (PDict d) "product" PNone = inr product_name ->
    Py.truthy product_name = true -> in_PRODUCTS product_name = inl e ->
    create_path cfg w req (inr create_internal_error, [])
| create_raises name pr username e :
    product_chosen req name pr username ->
    payment_create w (intent_for req name pr username) = inl e ->
    create_path cfg w req
      (inr create_internal_error, [PaymentCreate (intent_for req name pr username)])
| create_rejected name pr username :
    product_chosen req name pr username ->
    payment_create w (intent_for req name pr username) = inr Rejected ->
    create_path cfg w req
      (inr (Response (json_error "Payment creation failed") 500),
       [PaymentCreate (intent_for req name pr username)])
| create_without_links name pr username :
    product_chosen req name pr username ->
    payment_create w (intent_for req name pr username) = inr (Accepted None) ->
    create_path cfg w req
      (inr create_internal_error, [PaymentCreate (intent_for req name pr username)])
| create_accepted name pr username links :
    product_chosen req name pr username ->
    payment_create w (intent_for req name pr username)
    = inr (Accepted (Some links)) ->
    create_path cfg w req
      (inr (approval_response links),
       [PaymentCreate (intent_for req name pr username)]).

(** A provider that hands back, on [execute], a payment whose first
    transaction carries the metadata and the total of the payment
    [created]. *)
Definition echoes (w : world) (id payer : string) (created : payment_intent) : Prop :=
  exists p p' t rest,
    payment_find w id = inr p
    /\ payment_execute w p payer = inr (Some p')
    /\ transactions p' = t :: rest
    /\ transaction_custom t = PStr (custom created)
    /\ transaction_total t = PStr (amount_total created).

(** More sample data. *)
Definition purchase_request (username item price : pyval) : request :=
  json_request [("username", username); ("item", item); ("price", price)]
               "https://shop.example/".

Definition world_posting (posted : exn + http_response) : world :=
  sample_world paid_alice_mod (inr (Some paid_alice_mod)) posted.

Definition world_creating (answer : exn + option (list link)) : world :=
  {| requests_post := fun _ _ => inr no_content;
     payment_create := fun _ =>
       match answer with
       | inl e => inl e
       | inr (Some links) => inr (Accepted (Some links))
       | inr None => inr Rejected
       end;
     payment_find := fun _ => inr paid_alice_mod;
     payment_execute := fun _ _ => inr (Some paid_alice_mod) |}.

Definition world_without_links : world :=
  {| requests_post := fun _ _ => inr no_content;
     payment_create := fun _ => inr (Accepted None);
     payment_find := fun _ => inr paid_alice_mod;
     payment_execute := fun _ _ => inr (Some paid_alice_mod) |}.

Definition callback : request :=
  callback_request [("paymentId", "PAY-1"); ("PayerID", "P-9")].

(** ** Vocabulary of the corrected statements *)

(** [v] is one of the keys of [PRODUCTS]. *)
Definition is_catalog_key (v : pyval) : bool :=
  match v with
  | PStr s => match Py.lookup s PRODUCTS with Some _ => true | None => false end
  | _ => false
  end.

(** [hash(v)] does not raise: a list and a dict cannot be hashed. *)
Definition hashable (v : pyval) : bool :=
  match v with
  | PList _ | PDict _ => false
  | _ => true
  end.

(** A request of [/create-payment] whose product is a list. *)
Definition list_product_request : request :=
  json_request [("product", PList [PStr "Mod"]); ("username", PStr "alice")]
               "https://shop.example/".

(** In the world [w], the request [req] reaches an executed payment
    whose metadata does not decode into a pair of names. *)
Definition malformed_metadata_run (w : world) (req : request) : Prop :=
  exists id payer p p' t rest,
    args_get req "paymentId" = Some id /\ args_get req "PayerID" = Some payer
    /\ payment_find w id = inr p
    /\ payment_execute w p payer = inr (Some p')
    /\ transactions p' = t :: rest
    /\ forall names, decode_metadata (transaction_custom t) <> inr names.

(** The specification's reading of "reported as malformed metadata": an
    answer that [execute_payment] gives for that failure and no other. *)
Definition reports_malformed_metadata (r : response) : Prop :=
  forall cfg w req,
    fst (run (execute_payment cfg w req)) = inr r -> malformed_metadata_run w req.

(** A provider that echoes metadata without delimiter, and one whose
    lookup raises. *)
Definition world_echoing_malformed : world :=
  sample_world paid_alice_mod
    (inr (Some (sample_payment (PStr "alice-Mod") (PStr "3.0"))))
    (inr no_content).

Definition world_not_finding : world :=
  {| requests_post := fun _ _ => inr no_content;
     payment_create := fun _ => inr Rejected;
     payment_find := fun _ => inl SDKError;
     payment_execute := fun _ _ => inr None |}.

(** * Properties *)

(** ** Sanity checks of the float model on the values of the program *)

Example catalog_prices :
  map (fun kv => PyFloat.repr (price (snd kv))) PRODUCTS
  = ["3.0"; "7.0"; "3.0"; "30.0"; "50.0"].
Proof. vm_compute. reflexivity. Qed.

Example float_of_string_samples :
  map PyFloat.of_string ["3.00"; " 1_0.5 "; "abc"; "1e"; "-inf"; "0"]
  = [ Some (S754_finite false 6755399441055744 (-51));
      Some (S754_finite false 5910974510923776 (-49));
      None; None; Some (S754_infinity true); Some (S754_zero false) ].
Proof. vm_compute. reflexivity. Qed.

Example repr_reads_back :
  map (fun s => option_map PyFloat.repr (PyFloat.of_string s))
      ["0.1"; "0.30000000000000004"; "1e16"; "5e-324"; "1125899906842624.25"]
  = [ Some "0.1"; Some "0.30000000000000004"; Some "1e+16"; Some "5e-324";
      Some "1125899906842624.2" ].
Proof. vm_compute. reflexivity. Qed.

Example format_2f_samples :
  map (fun s => option_map PyFloat.format_2f (PyFloat.of_string s))
      ["3"; "2.675"; "0.125"; "-0.001"; "nan"]
  = [ Some "3.00"; Some "2.67"; Some "0.12"; Some "-0.00"; Some "nan" ].
Proof. vm_compute. reflexivity. Qed.

(** The prices of the catalog read back from their text. *)
Example catalog_prices_read_back :
  forallb (fun kv => match PyFloat.of_string (PyFloat.repr (price (snd kv))) with
                     | Some x => PyFloat.eqb x (price (snd kv))
                     | None => false
                     end) PRODUCTS = true.
Proof. vm_compute. reflexivity. Qed.

(** No name of the catalog contains the delimiter of the metadata. *)
Example catalog_names_without_delimiter :
  forallb (fun kv => negb (PyStr.contains "|" (fst kv))) PRODUCTS = true.
Proof. reflexivity. Qed.

(** ** Splitting and joining on the delimiter *)

Section Split.

Variable sep : ascii.

Lemma split_without_sep (s : string) :
  PyStr.contains sep s = false -> PyStr.split sep s = [s].
Proof.
  induction s as [| c s IH]; simpl; intros H.
  - reflexivity.
  - apply orb_false_iff in H. destruct H as [Hc Hs].
    rewrite Hc, (IH Hs). reflexivity.
Qed.

Lemma split_at_first_sep (a b : string) :
  PyStr.contains sep a = false ->
  PyStr.split sep (a ++ String sep b) = a :: PyStr.split sep b.
Proof.
  induction a as [| c a IH]; simpl; intros H.
  - rewrite Ascii.eqb_refl. reflexivity.
  - apply orb_false_iff in H. destruct H as [Hc Ha].
    rewrite Hc, (IH Ha). reflexivity.
Qed.

Lemma split_not_nil (s : string) : PyStr.split sep s <> [].
Proof.
  destruct s as [| c s]; simpl.
  - discriminate.
  - destruct (Ascii.eqb c sep); [discriminate |].
    destruct (PyStr.split sep s); discriminate.
Qed.

(** A separator in the text gives at least two pieces. *)
Lemma split_with_sep_longer (s : string) :
  PyStr.contains sep s = true -> (2 <= List.length (PyStr.split sep s))%nat.
Proof.
  induction s as [| c s IH]; simpl; intros H.
  - discriminate.
  - pose proof (split_not_nil s) as Hne.
    destruct (Ascii.eqb c sep) eqn:Hc; simpl in *.
    + destruct (PyStr.split sep s); [congruence | simpl; lia].
    + specialize (IH H). destruct (PyStr.split sep s); simpl in *; lia.
Qed.

End Split.

(** C1. Round trip of the purchase metadata: the text that
    [create_payment] stores in the ["custom"] field for a user name and a
    product name, decoded the way [execute_payment] does it, gives the
    two names back whenever neither of them contains the delimiter. *)
Theorem custom_metadata_roundtrip (username product_name : string) :
  PyStr.contains "|" username = false ->
  PyStr.contains "|" product_name = false ->
  decode_metadata (PStr (custom_metadata (PStr username) (PStr product_name)))
  = inr (username, product_name).
Proof.
  intros Hu Hp. unfold decode_metadata, custom_metadata, Py.split. simpl.
  rewrite (split_at_first_sep "|" username product_name Hu).
  rewrite (split_without_sep "|" product_name Hp). reflexivity.
Qed.

Lemma custom_metadata_roundtrip_witness :
  decode_metadata (PStr (custom_metadata (PStr "alice") (PStr "Mod")))
  = inr ("alice", "Mod").
Proof.
  apply (custom_metadata_roundtrip "alice" "Mod"); reflexivity.
Defined.

(** Without a delimiter the text does not decode. *)
Lemma decode_without_delimiter (s : string) :
  PyStr.contains "|" s = false -> decode_metadata (PStr s) = inl ValueError.
Proof.
  intros H. unfold decode_metadata, Py.split. simpl.
  rewrite (split_without_sep "|" s H). reflexivity.
Qed.

(** A delimiter inside a name breaks the round trip. *)
Example roundtrip_needs_the_guard :
  decode_metadata (PStr (custom_metadata (PStr "a|b") (PStr "Mod")))
  = inl ValueError.
Proof. reflexivity. Qed.

(** ** [execute_payment] *)

Ltac run_handler :=
  cbv beta delta [run try_except bind ret raise lift call get_json
                  missing_payment_info payment_execution_failed
                  payment_execution_error].

Lemma absent_or_empty_false (v : option string) :
  absent_or_empty v = false -> exists s, v = Some s /\ s <> EmptyString.
Proof.
  destruct v as [[| c s] |]; simpl; intros H; try discriminate.
  exists (String c s). split; [reflexivity | discriminate].
Qed.

Lemma truthy_str (s : string) :
  Py.truthy (PStr s) = false <-> s = EmptyString.
Proof.
  destruct s; simpl; split; intros H; congruence.
Qed.

(** Every run of [execute_payment] follows one of the paths. *)
Lemma execute_payment_path (cfg : config) (w : world) (req : request) :
  execute_path cfg w req (run (execute_payment cfg w req)).
Proof.
  unfold execute_payment, notify_payment.
  remember (Py.truthy (PStr (DISCORD_WEBHOOK cfg))) as configured eqn:Hhook.
  symmetry in Hhook.
  destruct (absent_or_empty (args_get req "paymentId")
            || absent_or_empty (args_get req "PayerID")) eqn:Hargs.
  - run_handler. now apply path_missing.
  - apply orb_false_iff in Hargs. destruct Hargs as [Hid Hpayer].
    destruct (absent_or_empty_false _ Hid) as [id [Eid _]].
    destruct (absent_or_empty_false _ Hpayer) as [payer [Epayer _]].
    run_handler. rewrite Eid, Epayer. simpl.
    destruct (payment_find w id) as [e | p] eqn:Hfind.
    { eapply path_find_raises; eauto. }
    destruct (payment_execute w p payer) as [e | [p' |]] eqn:Hexec.
    { eapply path_execute_raises; eauto. }
    2: { eapply path_rejected; eauto. }
    unfold first_transaction.
    destruct (transactions p') as [| t rest] eqn:Htrans.
    { eapply path_no_transaction; eauto. }
    destruct (decode_metadata (transaction_custom t)) as [e | [username product_name]] eqn:Hdec.
    { eapply path_malformed_metadata; eauto. }
    destruct (Py.float (transaction_total t)) as [e | price] eqn:Hprice.
    { eapply path_bad_total; eauto. }
    destruct configured.
    + assert (Hne : DISCORD_WEBHOOK cfg <> EmptyString).
      { intros E. apply truthy_str in E. congruence. }
      destruct (requests_post w (DISCORD_WEBHOOK cfg) _);
        eapply path_paid_notified; eauto.
    + apply truthy_str in Hhook.
      eapply path_paid_silently; eauto.
Qed.

(** C5. A request to [/execute-payment] without the [paymentId] or
    without the [PayerID] query parameter is answered 400, "Missing
    payment information", and the provider is not called: no call at all
    is made. *)
Theorem execute_payment_missing_parameter
    (cfg : config) (w : world) (req : request) :
  args_get req "paymentId" = None \/ args_get req "PayerID" = None ->
  run (execute_payment cfg w req) = (inr missing_payment_info, []).
Proof.
  intros H. unfold execute_payment. run_handler. cbv zeta.
  destruct H as [H | H]; rewrite H; simpl.
  - reflexivity.
  - rewrite orb_true_r. reflexivity.
Qed.

Lemma execute_payment_missing_parameter_witness :
  run (execute_payment sample_config happy_world
         (callback_request [("paymentId", "PAY-1")]))
  = (inr missing_payment_info, []).
Proof.
  apply (execute_payment_missing_parameter sample_config happy_world
           (callback_request [("paymentId", "PAY-1")])).
  right. reflexivity.
Defined.

(** An empty parameter counts as a missing one. *)
Lemma execute_payment_empty_parameter
    (cfg : config) (w : world) (req : request) :
  args_get req "paymentId" = Some EmptyString
  \/ args_get req "PayerID" = Some EmptyString ->
  run (execute_payment cfg w req) = (inr missing_payment_info, []).
Proof.
  intros H. unfold execute_payment. run_handler. cbv zeta.
  destruct H as [H | H]; rewrite H; simpl.
  - reflexivity.
  - rewrite orb_true_r. reflexivity.
Qed.

(** C6. When the provider has executed the payment and the notification
    that follows fails (the call to the webhook raises: a timeout, a
    transport error, anything), [execute_payment] still answers with the
    confirmation page, status 200, for the names and the amount read
    from the executed payment. *)
Theorem execute_payment_swallows_notification_failure
    (cfg : config) (w : world) (req : request)
    (r : exn + response) (t : trace)
    (p p' : payment) (payer url : string) (message : pyval) (e : exn) :
  run (execute_payment cfg w req) = (r, t) ->
  In (PaymentExecute p payer) t ->
  payment_execute w p payer = inr (Some p') ->
  In (WebhookPost url message) t ->
  requests_post w url message = inl e ->
  exists tr rest username product_name price,
    transactions p' = tr :: rest
    /\ decode_metadata (transaction_custom tr) = inr (username, product_name)
    /\ Py.float (transaction_total tr) = inr price
    /\ r = inr (Response (Text (success_page username product_name price)) 200).
Proof.
  intros Hrun Hexec Hok Hpost Hfail.
  pose proof (execute_payment_path cfg w req) as Hpath.
  rewrite Hrun in Hpath.
  inversion Hpath; subst; simpl in Hpost, Hexec;
    repeat match goal with
           | H : _ \/ _ |- _ => destruct H
           | H : False |- _ => contradiction
           | H : _ = _ :> event |- _ => inversion H; clear H; subst
           end.
  match goal with
  | H1 : payment_execute w p payer = inr (Some _),
    H2 : payment_execute w p payer = inr (Some _) |- _ =>
      rewrite H1 in H2; inversion H2; subst
  end.
  eauto 10.
Qed.

Lemma execute_payment_swallows_notification_failure_witness :
  exists tr rest username product_name price,
    transactions paid_alice_mod = tr :: rest
    /\ decode_metadata (transaction_custom tr) = inr (username, product_name)
    /\ Py.float (transaction_total tr) = inr price
    /\ fst (run (execute_payment sample_config
                   (sample_world paid_alice_mod (inr (Some paid_alice_mod)) (inl Timeout))
                   (callback_request [("paymentId", "PAY-1"); ("PayerID", "P-9")])))
       = inr (Response (Text (success_page username product_name price)) 200).
Proof.
  eapply (execute_payment_swallows_notification_failure
            sample_config
            (sample_world paid_alice_mod (inr (Some paid_alice_mod)) (inl Timeout))
            (callback_request [("paymentId", "PAY-1"); ("PayerID", "P-9")])
            _ _ paid_alice_mod paid_alice_mod "P-9"
            (DISCORD_WEBHOOK sample_config)
            (payment_message "alice" "Mod" (PyFloat.literal "3.0") (PStr "PAY-1"))
            Timeout).
  - vm_compute. reflexivity.
  - simpl. right. left. reflexivity.
  - reflexivity.
  - simpl. right. right. left. reflexivity.
  - reflexivity.
Defined.

Ltac invert_path Hrun :=
  match type of Hrun with
  | run (execute_payment ?cfg ?w ?req) = _ =>
      let Hpath := fresh "Hpath" in
      pose proof (execute_payment_path cfg w req) as Hpath;
      rewrite Hrun in Hpath;
      inversion Hpath; subst; clear Hpath
  end.

Ltac same_call :=
  simpl in *;
  repeat match goal with
         | H : _ \/ _ |- _ => destruct H
         | H : False |- _ => contradiction
         | H : _ = _ :> event |- _ => inversion H; clear H; subst
         end;
  repeat match goal with
         | H1 : payment_execute ?w ?p ?payer = _,
           H2 : payment_execute ?w ?p ?payer = _ |- _ =>
             rewrite H1 in H2; inversion H2; clear H2; subst
         end.

(** C7. When the provider rejects the execution of the payment (the
    call returns a rejection), [execute_payment] answers 500, "Payment
    execution failed", and no notification goes to the webhook. *)
Theorem execute_payment_rejected_no_notification
    (cfg : config) (w : world) (req : request)
    (r : exn + response) (t : trace) (p : payment) (payer : string) :
  run (execute_payment cfg w req) = (r, t) ->
  In (PaymentExecute p payer) t ->
  payment_execute w p payer = inr None ->
  r = inr payment_execution_failed
  /\ forall ev, In ev t -> webhook_call ev = false.
Proof.
  intros Hrun Hexec Hrejected.
  invert_path Hrun; same_call; try discriminate.
  split; [reflexivity |].
  intros ev [E | [E | []]]; subst; reflexivity.
Qed.

Lemma execute_payment_rejected_no_notification_witness :
  fst (run (execute_payment sample_config
              (sample_world paid_alice_mod (inr None) (inr no_content))
              (callback_request [("paymentId", "PAY-1"); ("PayerID", "P-9")])))
  = inr payment_execution_failed
  /\ forall ev,
      In ev (snd (run (execute_payment sample_config
                         (sample_world paid_alice_mod (inr None) (inr no_content))
                         (callback_request [("paymentId", "PAY-1"); ("PayerID", "P-9")])))) ->
      webhook_call ev = false.
Proof.
  apply (execute_payment_rejected_no_notification
           sample_config
           (sample_world paid_alice_mod (inr None) (inr no_content))
           (callback_request [("paymentId", "PAY-1"); ("PayerID", "P-9")])
           _ _ paid_alice_mod "P-9").
  - vm_compute. reflexivity.
  - simpl. right. left. reflexivity.
  - reflexivity.
Defined.

(** C8, as the code has it. When the provider has executed the payment
    but the metadata it echoes does not decode into a pair (user name,
    product name), [execute_payment] does not let the failure escape:
    its catch-all answers 500, "Payment execution error", the answer it
    gives to every unexpected failure, and no notification is sent. *)
Theorem execute_payment_malformed_metadata
    (cfg : config) (w : world) (req : request)
    (r : exn + response) (t : trace)
    (p p' : payment) (payer : string) (tr : transaction) (rest : list transaction) :
  run (execute_payment cfg w req) = (r, t) ->
  In (PaymentExecute p payer) t ->
  payment_execute w p payer = inr (Some p') ->
  transactions p' = tr :: rest ->
  (forall names, decode_metadata (transaction_custom tr) <> inr names) ->
  r = inr payment_execution_error
  /\ forall ev, In ev t -> webhook_call ev = false.
Proof.
  intros Hrun Hexec Hok Htrans Hbad.
  invert_path Hrun; same_call; try discriminate;
    try match goal with
        | H1 : transactions ?q = _, H2 : transactions ?q = _ |- _ =>
            rewrite H1 in H2; inversion H2; clear H2; subst
        end;
    try match goal with
        | H : decode_metadata _ = inr ?n |- _ => exfalso; exact (Hbad n H)
        end.
  split; [reflexivity |].
  intros ev [E | [E | []]]; subst; reflexivity.
Qed.

Lemma execute_payment_malformed_metadata_witness :
  fst (run (execute_payment sample_config
              (sample_world paid_alice_mod
                 (inr (Some (sample_payment (PStr "alice-Mod") (PStr "3.0"))))
                 (inr no_content))
              (callback_request [("paymentId", "PAY-1"); ("PayerID", "P-9")])))
  = inr payment_execution_error
  /\ forall ev,
      In ev (snd (run (execute_payment sample_config
                         (sample_world paid_alice_mod
                            (inr (Some (sample_payment (PStr "alice-Mod") (PStr "3.0"))))
                            (inr no_content))
                         (callback_request [("paymentId", "PAY-1"); ("PayerID", "P-9")])))) ->
      webhook_call ev = false.
Proof.
  apply (execute_payment_malformed_metadata
           sample_config
           (sample_world paid_alice_mod
              (inr (Some (sample_payment (PStr "alice-Mod") (PStr "3.0"))))
              (inr no_content))
           (callback_request [("paymentId", "PAY-1"); ("PayerID", "P-9")])
           _ _ paid_alice_mod (sample_payment (PStr "alice-Mod") (PStr "3.0")) "P-9"
           {| transaction_custom := PStr "alice-Mod"; transaction_total := PStr "3.0" |}
           []).
  - vm_compute. reflexivity.
  - simpl. right. left. reflexivity.
  - reflexivity.
  - reflexivity.
  - intros names H. vm_compute in H. discriminate.
Defined.

(** C8, as the specification has it, fails: the answer to malformed
    metadata is not an answer of its own. It is the answer of the
    catch-all, which the handler also gives when the lookup of the
    payment raises, so it does not report the metadata. *)
Lemma malformed_metadata_is_not_reported_as_such :
  malformed_metadata_run world_echoing_malformed callback
  /\ fst (run (execute_payment sample_config world_echoing_malformed callback))
     = inr payment_execution_error
  /\ fst (run (execute_payment sample_config world_not_finding callback))
     = inr payment_execution_error
  /\ ~ reports_malformed_metadata payment_execution_error.
Proof.
  split; [| split; [reflexivity | split; [reflexivity |]]].
  - exists "PAY-1", "P-9", paid_alice_mod,
      (sample_payment (PStr "alice-Mod") (PStr "3.0")),
      {| transaction_custom := PStr "alice-Mod"; transaction_total := PStr "3.0" |},
      [].
    repeat split. intros names H. vm_compute in H. discriminate H.
  - intros Hreports.
    destruct (Hreports sample_config world_not_finding callback eq_refl)
      as [id [payer [p [p' [t [rest [_ [_ [Hfind _]]]]]]]]].
    discriminate Hfind.
Qed.

(** Too many delimiters are malformed as well: the names are not cut at
    the first delimiter. *)
Example decode_two_delimiters :
  decode_metadata (PStr "alice|Mod|extra") = inl ValueError.
Proof. reflexivity. Qed.

(** ** [create_payment] *)

(** For a JSON request whose ["product"] is missing, empty (false in a
    test), or a hashable value that is not a key of the catalog,
    [create_payment] answers 400, "Invalid product", and makes no call
    at all: the provider is not contacted. *)
Theorem create_payment_invalid_product
    (cfg : config) (w : world) (req : request)
    (d : list (string * pyval)) (product_name : pyval) :
  is_json req = true ->
  json_body req = Some (PDict d) ->
  Py.get (PDict d) "product" PNone = inr product_name ->
  Py.truthy product_name = false \/ in_PRODUCTS product_name = inr false ->
  run (create_payment cfg w req)
  = (inr (Response (json_error "Invalid product") 400), []).
Proof.
  intros Hjson Hbody Hget Hinvalid.
  unfold create_payment. run_handler. rewrite Hjson, Hbody. simpl in *.
  injection Hget as Hget. rewrite Hget.
  destruct (Py.truthy product_name) eqn:Htruthy; simpl.
  - destruct Hinvalid as [H | H]; [discriminate |].
    rewrite H. reflexivity.
  - reflexivity.
Qed.

Lemma create_payment_invalid_product_witness :
  run (create_payment sample_config happy_world
         (json_request [("product", PStr "Mod++"); ("username", PStr "alice")]
                       "https://shop.example/"))
  = (inr (Response (json_error "Invalid product") 400), []).
Proof.
  apply (create_payment_invalid_product sample_config happy_world
           (json_request [("product", PStr "Mod++"); ("username", PStr "alice")]
                         "https://shop.example/")
           [("product", PStr "Mod++"); ("username", PStr "alice")]
           (PStr "Mod++")).
  - reflexivity.
  - reflexivity.
  - reflexivity.
  - right. reflexivity.
Defined.

(** C3, as the code has it. For a JSON request whose ["product"] is
    missing, empty (false in a test) or not a key of the catalog,
    [create_payment] makes no call at all, so the provider is not
    contacted, and answers 400, "Invalid product", unless the product is
    a non-empty list or dict: the membership test then raises and the
    catch-all answers 500, "Internal server error". *)
Theorem create_payment_product_not_in_catalog
    (cfg : config) (w : world) (req : request)
    (d : list (string * pyval)) (product_name : pyval) :
  is_json req = true ->
  json_body req = Some (PDict d) ->
  Py.get (PDict d) "product" PNone = inr product_name ->
  Py.truthy product_name = false \/ is_catalog_key product_name = false ->
  run (create_payment cfg w req)
  = (inr (if negb (Py.truthy product_name) || hashable product_name
          then Response (json_error "Invalid product") 400
          else Response (json_error "Internal server error") 500),
     []).
Proof.
  intros Hjson Hbody Hget Hinvalid.
  unfold create_payment. run_handler. rewrite Hjson, Hbody.
  cbn [Py.get] in *. injection Hget as Hget. rewrite Hget.
  destruct (Py.truthy product_name) eqn:Htruthy; cbn [negb orb]; [| reflexivity].
  destruct Hinvalid as [H | Hkey]; [discriminate H |].
  unfold in_PRODUCTS.
  destruct product_name as [| b | n | x | name | l | items]; try reflexivity.
  unfold is_catalog_key in Hkey.
  destruct (Py.lookup name PRODUCTS); [discriminate Hkey | reflexivity].
Qed.

Lemma create_payment_product_not_in_catalog_witness :
  run (create_payment sample_config happy_world
         (json_request [("product", PStr "mod")] "https://shop.example/"))
  = (inr (Response (json_error "Invalid product") 400), []).
Proof.
  apply (create_payment_product_not_in_catalog sample_config happy_world
           (json_request [("product", PStr "mod")] "https://shop.example/")
           [("product", PStr "mod")] (PStr "mod")).
  - reflexivity.
  - reflexivity.
  - reflexivity.
  - right. reflexivity.
Defined.

(** C3, as stated, fails: a product that is a list is not a key of the
    catalog, and the answer is 500, not 400 "Invalid product". *)
Lemma create_payment_list_product_is_500 :
  Py.lookup "product" [("product", PList [PStr "Mod"]); ("username", PStr "alice")]
  = Some (PList [PStr "Mod"])
  /\ is_catalog_key (PList [PStr "Mod"]) = false
  /\ run (create_payment sample_config happy_world list_product_request)
     = (inr (Response (json_error "Internal server error") 500), [])
  /\ status_of (Response (json_error "Internal server error") 500) <> 400.
Proof.
  repeat split. discriminate.
Qed.

(** The same for a product name given as text: the empty name and every
    name that is not in the catalog. *)
Lemma create_payment_unknown_name
    (cfg : config) (w : world) (d : list (string * pyval)) (root name : string) :
  Py.lookup "product" d = Some (PStr name) ->
  name = EmptyString \/ Py.lookup name PRODUCTS = None ->
  run (create_payment cfg w (json_request d root))
  = (inr (Response (json_error "Invalid product") 400), []).
Proof.
  intros Hd Hname.
  unfold create_payment, json_request. run_handler.
  cbn [is_json json_body Py.get]. rewrite Hd.
  destruct Hname as [-> | Hname]; [reflexivity |].
  destruct name as [| c name]; [reflexivity |].
  cbn [Py.truthy negb]. unfold in_PRODUCTS. rewrite Hname. reflexivity.
Qed.

(** A product that is a non-empty list or dict cannot be looked up: the
    membership test raises, the catch-all answers 500; the provider is
    not contacted either. *)
Lemma create_payment_unhashable_product
    (cfg : config) (w : world) (req : request)
    (d : list (string * pyval)) (product_name : pyval) :
  is_json req = true ->
  json_body req = Some (PDict d) ->
  Py.get (PDict d) "product" PNone = inr product_name ->
  Py.truthy product_name = true ->
  in_PRODUCTS product_name = inl TypeError ->
  run (create_payment cfg w req)
  = (inr (Response (json_error "Internal server error") 500), []).
Proof.
  intros Hjson Hbody Hget Htruthy Hin.
  unfold create_payment. run_handler. rewrite Hjson, Hbody. simpl in *.
  injection Hget as Hget. rewrite Hget, Htruthy. simpl. rewrite Hin. reflexivity.
Qed.

(** For a product of the catalog, [create_payment] makes one call: the
    creation of the payment built from the request. *)
Lemma create_payment_calls
    (cfg : config) (w : world) (req : request)
    (d : list (string * pyval)) (name : string) (username : pyval) (pr : product) :
  is_json req = true ->
  json_body req = Some (PDict d) ->
  Py.lookup "product" d = Some (PStr name) ->
  Py.get (PDict d) "username" (PStr "Anonymous") = inr username ->
  name <> EmptyString ->
  Py.lookup name PRODUCTS = Some pr ->
  snd (run (create_payment cfg w req))
  = [PaymentCreate
       (build_intent req (PStr name) username pr
          (PyStr.replace " " "_" (PyStr.lower name)))].
Proof.
  intros Hjson Hbody Hproduct Huser Hname Hpr.
  unfold create_payment. run_handler. rewrite Hjson, Hbody.
  unfold Py.get in *. rewrite Hproduct. injection Huser as Huser. rewrite Huser.
  assert (Ht : Py.truthy (PStr name) = true).
  { destruct name; [congruence | reflexivity]. }
  rewrite Ht. unfold in_PRODUCTS, PRODUCTS_getitem. rewrite Hpr. cbn [negb Py.str_method].
  destruct (payment_create w _) as [e | [[links |] |]]; reflexivity.
Qed.

Lemma create_payment_mod_alice_calls (cfg : config) (w : world) (root : string) :
  snd (run (create_payment cfg w (mod_alice_request root)))
  = [PaymentCreate (mod_alice_intent root)].
Proof.
  rewrite (create_payment_calls cfg w (mod_alice_request root)
             [("product", PStr "Mod"); ("username", PStr "alice")]
             "Mod" (PStr "alice")
             {| price := PyFloat.literal "3.00";
                product_description :=
                  "Get Fly, Larger Anti-Raid Zone, Teleport and Mod Kits" |});
    try reflexivity.
  discriminate.
Qed.

(** C4, as the code has it. [create_payment] for product ["Mod"] and
    user ["alice"] makes exactly one call, the creation of a payment
    whose single line item is name "Mod", sku "mod", price "3.0",
    currency "USD", quantity 1 (with the description of the catalog),
    whose total is "3.0" and whose metadata is "alice|Mod": the price is
    [str(3.00)], which Python writes "3.0". *)
Theorem create_payment_mod_alice (cfg : config) (w : world) (root : string) :
  exists p it,
    snd (run (create_payment cfg w (mod_alice_request root))) = [PaymentCreate p]
    /\ items p = [it]
    /\ item_name it = PStr "Mod" /\ item_sku it = "mod"
    /\ item_price it = "3.0" /\ item_currency it = "USD"
    /\ item_quantity it = 1
    /\ amount_total p = "3.0"
    /\ custom p = "alice|Mod".
Proof.
  exists (mod_alice_intent root). eexists.
  split; [apply create_payment_mod_alice_calls |].
  repeat split.
Qed.

(** C4, as the specification has it, fails: the intent sent to the
    provider does not carry the price "3.00". *)
Lemma create_payment_mod_alice_price_is_not_3_00 :
  ~ (exists p,
        In (PaymentCreate p)
           (snd (run (create_payment sample_config happy_world
                        (mod_alice_request "https://shop.example/"))))
        /\ spec_scenario_intent p).
Proof.
  intros [p [Hin Hspec]].
  rewrite create_payment_mod_alice_calls in Hin.
  destruct Hin as [E | []]. injection E as <-.
  destruct Hspec as [_ [Htotal _]]. discriminate Htotal.
Qed.

(** ** [handle_purchase] *)

(** The required-field test on a JSON object, field by field. *)
Lemma missing_required (d : list (string * pyval)) :
  missing (PDict d) required_fields
  = inr (filter
           (fun field =>
              negb (Py.truthy (match Py.lookup field d with
                               | Some v => v
                               | None => PNone
                               end)))
           required_fields).
Proof.
  unfold required_fields. simpl.
  repeat match goal with
         | |- context [Py.truthy ?v] => destruct (Py.truthy v)
         end; reflexivity.
Qed.

Lemma strip_nonempty (s : string) :
  PyStr.strip s <> EmptyString -> s <> EmptyString.
Proof.
  intros H E. subst s. apply H. reflexivity.
Qed.

Lemma nonempty_truthy (s : string) :
  s <> EmptyString -> Py.truthy (PStr s) = true.
Proof.
  destruct s; [congruence | reflexivity].
Qed.

(** What is left of a run of [handle_purchase] for a request with valid
    names and a price [x] that passed the checks: the test of the
    configuration and the call to the webhook. *)
Lemma handle_purchase_valid
    (cfg : config) (w : world) (req : request)
    (d : list (string * pyval)) (u i : string) (p : pyval) (x : PyFloat.float) :
  is_json req = true ->
  json_body req = Some (PDict d) ->
  Py.lookup "username" d = Some (PStr u) ->
  Py.lookup "item" d = Some (PStr i) ->
  Py.lookup "price" d = Some p ->
  PyStr.strip u <> EmptyString ->
  PyStr.strip i <> EmptyString ->
  Py.truthy p = true ->
  Py.float p = inr x ->
  PyFloat.ltb0 x = false ->
  let username := PyStr.strip u in
  let item := PyStr.strip i in
  let url := DISCORD_WEBHOOK cfg in
  let message := purchase_message username item x in
  run (handle_purchase cfg w req)
  = match url with
    | EmptyString =>
        (inr (Response
                (Json (PDict
                   [("error", PStr "Discord webhook not configured");
                    ("message", PStr "Please set DISCORD_WEBHOOK_URL environment variable")]))
                500), [])
    | _ =>
        (inr match requests_post w url message with
             | inr response =>
                 if (status_code response =? 200) || (status_code response =? 204)
                 then purchase_success username item x
                 else Response
                        (Json (PDict
                           [("error", PStr "Failed to send Discord notification");
                            ("message",
                             PStr ("Discord API returned status "
                                   ++ PyStr.of_Z (status_code response)))]))
                        500
             | inl Timeout =>
                 Response
                   (Json (PDict
                      [("error", PStr "Discord notification timeout");
                       ("message", PStr "The Discord webhook request timed out")]))
                   500
             | inl RequestException =>
                 Response
                   (Json (PDict
                      [("error", PStr "Failed to send Discord notification");
                       ("message", PStr "Could not connect to Discord webhook")]))
                   500
             | inl _ => purchase_internal_error
             end,
         [WebhookPost url message])
    end.
Proof.
  intros Hjson Hbody Hu Hi Hp Hus His Hpt Hfloat Hsign username item url message.
  pose proof (nonempty_truthy _ (strip_nonempty _ Hus)) as Htu.
  pose proof (nonempty_truthy _ (strip_nonempty _ His)) as Hti.
  pose proof (nonempty_truthy _ Hus) as Htsu.
  pose proof (nonempty_truthy _ His) as Htsi.
  unfold handle_purchase, coerce_price. run_handler.
  rewrite Hjson, Hbody. cbn [negb].
  rewrite missing_required. unfold required_fields. cbn [filter].
  rewrite Hu, Hi, Hp, Hpt, Htu, Hti. cbn [negb].
  unfold Py.getitem, Py.strip, Py.str_method. rewrite Hu, Hi, Hp.
  rewrite Htsu, Htsi. cbn [negb]. rewrite Hfloat, Hsign.
  subst username item url message.
  destruct (DISCORD_WEBHOOK cfg) as [| c hook] eqn:Hhook; cbn [Py.truthy negb].
  - reflexivity.
  - destruct (requests_post w _ _) as [[] | response]; try reflexivity.
    cbn [app]. destruct ((status_code response =? 200) || (status_code response =? 204));
      reflexivity.
Qed.

(** For a price that passes the required-field test, the handler
    succeeds exactly when the webhook is configured and answers 200 or
    204; otherwise the answer is a 500. *)
Lemma handle_purchase_succeeds_iff
    (cfg : config) (w : world) (req : request)
    (d : list (string * pyval)) (u i : string) (p : pyval) (x : PyFloat.float) :
  is_json req = true ->
  json_body req = Some (PDict d) ->
  Py.lookup "username" d = Some (PStr u) ->
  Py.lookup "item" d = Some (PStr i) ->
  Py.lookup "price" d = Some p ->
  PyStr.strip u <> EmptyString ->
  PyStr.strip i <> EmptyString ->
  Py.truthy p = true ->
  Py.float p = inr x ->
  PyFloat.ltb0 x = false ->
  let success := purchase_success (PyStr.strip u) (PyStr.strip i) x in
  let posted :=
    requests_post w (DISCORD_WEBHOOK cfg)
      (purchase_message (PyStr.strip u) (PyStr.strip i) x) in
  (fst (run (handle_purchase cfg w req)) = inr success
   <-> DISCORD_WEBHOOK cfg <> EmptyString
       /\ exists response,
           posted = inr response
           /\ (status_code response = 200 \/ status_code response = 204))
  /\ (fst (run (handle_purchase cfg w req)) = inr success
      \/ exists b, fst (run (handle_purchase cfg w req)) = inr (Response b 500)).
Proof.
  intros Hjson Hbody Hu Hi Hp Hus His Hpt Hfloat Hsign success posted.
  rewrite (handle_purchase_valid cfg w req d u i p x) by assumption.
  subst success posted.
  destruct (DISCORD_WEBHOOK cfg) as [| c hook]; cbn [fst].
  - split.
    + split; [discriminate | intros [H _]; congruence].
    + right. eexists. reflexivity.
  - destruct (requests_post w _ _) as [e | response].
    + split.
      * split; [| intros [_ [response [H _]]]; discriminate].
        destruct e; discriminate.
      * right. destruct e; eexists; reflexivity.
    + destruct (status_code response =? 200) eqn:H200;
        [| destruct (status_code response =? 204) eqn:H204]; cbn [orb].
      * apply Z.eqb_eq in H200. split; [| left; reflexivity].
        split; [| reflexivity]. intros _. split; [discriminate |].
        exists response. auto.
      * apply Z.eqb_eq in H204. split; [| left; reflexivity].
        split; [| reflexivity]. intros _. split; [discriminate |].
        exists response. auto.
      * apply Z.eqb_neq in H200, H204. split; [| right; eexists; reflexivity].
        split; [discriminate |].
        intros [_ [response' [E [H | H]]]]; injection E as <-; contradiction.
Qed.

(** C2, at the price 0. With valid names, a configured webhook and
    whatever the webhook would answer, the price 0 sent as a JSON number
    does not reach the webhook: it fails the required-field test, and
    the answer is 400, "Missing required fields: price". *)
Theorem handle_purchase_zero_price_is_missing
    (cfg : config) (w : world) (root : string) :
  run (handle_purchase cfg w (zero_price_request root))
  = (inr (purchase_missing ["price"]), []).
Proof. reflexivity. Qed.

(** The same price sent as the text "0" passes the test, is read as the
    float 0.0, is not negative, and the purchase succeeds. *)
Example handle_purchase_zero_price_as_text :
  run (handle_purchase sample_config happy_world
         (json_request [("username", PStr "bob"); ("item", PStr "Mod");
                        ("price", PStr "0")] "https://shop.example/"))
  = (inr (purchase_success "bob" "Mod" (S754_zero false)),
     [WebhookPost (DISCORD_WEBHOOK sample_config)
        (purchase_message "bob" "Mod" (S754_zero false))]).
Proof. vm_compute. reflexivity. Qed.

(** Every price that is false in a test is reported missing, whatever
    the rest of the request: the float 0.0 and [False] as well. *)
Lemma handle_purchase_falsy_price
    (cfg : config) (w : world) (req : request)
    (d : list (string * pyval)) (p : pyval) :
  is_json req = true ->
  json_body req = Some (PDict d) ->
  Py.lookup "price" d = Some p ->
  Py.truthy p = false ->
  exists fields,
    run (handle_purchase cfg w req) = (inr (purchase_missing fields), [])
    /\ In "price" fields.
Proof.
  intros Hjson Hbody Hp Hfalsy.
  unfold handle_purchase. run_handler. rewrite Hjson, Hbody. cbn [negb].
  rewrite missing_required. unfold required_fields. cbn [filter].
  rewrite Hp, Hfalsy. cbn [negb].
  destruct (negb (Py.truthy _)); destruct (negb (Py.truthy _));
    eexists; (split; [reflexivity | simpl; auto]).
Qed.

(** C9, as the code has it. The request with the empty user name, item
    "Mod" and price 3 is answered 400 with the error "Missing required
    fields: username", and no call is made: the empty text fails the
    required-field test, before the test that answers "Username cannot
    be empty". *)
Theorem handle_purchase_empty_username
    (cfg : config) (w : world) (root : string) :
  run (handle_purchase cfg w (empty_username_request root))
  = (inr (purchase_missing ["username"]), [])
  /\ status_of (purchase_missing ["username"]) = 400
  /\ error_text (purchase_missing ["username"])
     = Some "Missing required fields: username".
Proof. repeat split. Qed.

(** C9, as the specification has it, fails: the error of the answer does
    not mention that the user name is empty. *)
Lemma handle_purchase_empty_username_not_mentioned :
  ~ (exists r msg,
        fst (run (handle_purchase sample_config happy_world
                    (empty_username_request "https://shop.example/"))) = inr r
        /\ status_of r = 400
        /\ error_text r = Some msg
        /\ mentions "empty" msg = true).
Proof.
  intros [r [msg [Hr [_ [Hmsg Hmentions]]]]].
  vm_compute in Hr. injection Hr as <-.
  vm_compute in Hmsg. injection Hmsg as <-.
  vm_compute in Hmentions. discriminate.
Qed.

(** The message "Username cannot be empty" is the answer to a user name
    made of white space only. *)
Example handle_purchase_blank_username :
  run (handle_purchase sample_config happy_world
         (json_request [("username", PStr "   "); ("item", PStr "Mod");
                        ("price", PInt 3)] "https://shop.example/"))
  = (inr (Response (json_error "Username cannot be empty") 400), []).
Proof. vm_compute. reflexivity. Qed.

(** C10, as the code has it. When the three required fields pass the
    required-field test (each is present and true in a test) and the
    user name or the item is not text, [.strip()] raises, the catch-all
    takes over, and the answer is 500, "Internal server error"; no call
    is made. *)
Theorem handle_purchase_non_text_field
    (cfg : config) (w : world) (req : request)
    (d : list (string * pyval)) (u i p : pyval) :
  is_json req = true ->
  json_body req = Some (PDict d) ->
  Py.lookup "username" d = Some u ->
  Py.lookup "item" d = Some i ->
  Py.lookup "price" d = Some p ->
  Py.truthy u = true -> Py.truthy i = true -> Py.truthy p = true ->
  Py.is_str u = false \/ Py.is_str i = false ->
  run (handle_purchase cfg w req) = (inr purchase_internal_error, []).
Proof.
  intros Hjson Hbody Hu Hi Hp Htu Hti Htp Hnot.
  unfold handle_purchase. run_handler. rewrite Hjson, Hbody. cbn [negb].
  rewrite missing_required. unfold required_fields. cbn [filter].
  rewrite Hu, Hi, Hp, Htu, Hti, Htp. cbn [negb].
  unfold Py.getitem, Py.strip, Py.str_method. rewrite Hu, Hi.
  destruct u; try reflexivity.
  destruct i; try reflexivity.
  destruct Hnot; discriminate.
Qed.

Lemma handle_purchase_non_text_field_witness :
  run (handle_purchase sample_config happy_world
         (json_request [("username", PInt 5); ("item", PStr "Mod"); ("price", PInt 3)]
                       "https://shop.example/"))
  = (inr purchase_internal_error, []).
Proof.
  apply (handle_purchase_non_text_field sample_config happy_world
           (json_request [("username", PInt 5); ("item", PStr "Mod"); ("price", PInt 3)]
                         "https://shop.example/")
           [("username", PInt 5); ("item", PStr "Mod"); ("price", PInt 3)]
           (PInt 5) (PStr "Mod") (PInt 3));
    try reflexivity.
  left. reflexivity.
Defined.

(** C10, as stated, fails: a user name that is present and is the number
    0 is answered 400, by the required-field test. *)
Lemma handle_purchase_zero_username_is_400 :
  Py.lookup "username" [("username", PInt 0); ("item", PStr "Mod"); ("price", PInt 3)]
  = Some (PInt 0)
  /\ Py.is_str (PInt 0) = false
  /\ run (handle_purchase sample_config happy_world
            (zero_username_request "https://shop.example/"))
     = (inr (purchase_missing ["username"]), [])
  /\ status_of (purchase_missing ["username"]) = 400.
Proof. repeat split. Qed.

(** * Further properties of the handlers *)

(** ** The paths of [handle_purchase] *)

Lemma filter_required_nil (d : list (string * pyval)) :
  filter (fun field =>
            negb (Py.truthy (match Py.lookup field d with
                             | Some v => v
                             | None => PNone
                             end)))
         required_fields = [] ->
  exists u i p,
    Py.lookup "username" d = Some u /\ Py.lookup "item" d = Some i
    /\ Py.lookup "price" d = Some p
    /\ Py.truthy u = true /\ Py.truthy i = true /\ Py.truthy p = true.
Proof.
  unfold required_fields. cbn [filter].
  destruct (Py.lookup "username" d) as [u |];
    destruct (Py.lookup "item" d) as [i |];
    destruct (Py.lookup "price" d) as [p |];
    try destruct (Py.truthy u) eqn:Hu;
    try destruct (Py.truthy i) eqn:Hi;
    try destruct (Py.truthy p) eqn:Hp;
    cbn [negb Py.truthy]; intros H; try discriminate H.
  exists u, i, p. repeat split; assumption.
Qed.

Ltac purchase_prefix Hjson Hbody :=
  unfold handle_purchase, coerce_price; run_handler;
  rewrite Hjson, ?Hbody; cbn [negb].

(** Every run of [handle_purchase] follows one of the paths. *)
Lemma handle_purchase_path (cfg : config) (w : world) (req : request) :
  purchase_path cfg w req (run (handle_purchase cfg w req)).
Proof.
  destruct (is_json req) eqn:Hjson.
  2: { purchase_prefix Hjson Hjson. now apply purchase_not_json. }
  destruct (json_body req) as [data |] eqn:Hbody.
  2: { purchase_prefix Hjson Hbody. now apply purchase_bad_body. }
  assert (Hobj : (exists d, data = PDict d) \/ forall d, data <> PDict d).
  { destruct data; try (right; intros d' E; discriminate E). left. eauto. }
  destruct Hobj as [[d ->] | Hobj].
  2: { purchase_prefix Hjson Hbody.
       destruct data; try (now eapply purchase_not_object; eauto).
       exfalso. eapply Hobj. reflexivity. }
  pose proof (missing_required d) as Hmissing.
  destruct (filter _ required_fields) as [| field fields] eqn:Hfilter.
  2: { purchase_prefix Hjson Hbody. rewrite Hmissing.
       eapply purchase_fields_missing; eauto. discriminate. }
  destruct (filter_required_nil d Hfilter)
    as [u [i [p [Hu [Hi [Hp [Htu [Hti Htp]]]]]]]].
  assert (Hpresent : required_present req u i p).
  { exists d. repeat split; assumption. }
  purchase_prefix Hjson Hbody. rewrite Hmissing.
  unfold Py.getitem, Py.strip, Py.str_method. rewrite Hu, Hi, Hp.
  destruct u as [| | | | us | |];
    try (now eapply purchase_username_not_text; eauto).
  destruct i as [| | | | its | |];
    try (now eapply purchase_item_not_text; eauto).
  remember (PyStr.strip us) as username eqn:Eu.
  remember (PyStr.strip its) as item eqn:Ei.
  destruct username as [| cu username'] eqn:Eusername; cbn [Py.truthy negb].
  { eapply purchase_blank_username; eauto. }
  destruct item as [| ci item'] eqn:Eitem; cbn [Py.truthy negb].
  { eapply purchase_blank_item; eauto. rewrite <- Eu. discriminate. }
  rewrite <- Eusername, <- Eitem.
  assert (Hnames : names_given req username item p).
  { exists us, its. subst username item. repeat split; try assumption;
      rewrite <- ?Eu, <- ?Ei; discriminate. }
  clear Eusername Eitem.
  destruct (Py.float p) as [e | x] eqn:Hfloat.
  { destruct e;
      try (now eapply purchase_price_invalid; eauto);
      (eapply purchase_price_raises; eauto; discriminate). }
  destruct (PyFloat.ltb0 x) eqn:Hsign.
  { eapply purchase_price_negative; eauto. }
  assert (Hchecked : purchase_checked req username item x).
  { exists p. auto. }
  destruct (DISCORD_WEBHOOK cfg) as [| c hook] eqn:Hhook; cbn [Py.truthy negb].
  { now eapply purchase_unconfigured; eauto. }
  rewrite <- Hhook.
  assert (Hne : DISCORD_WEBHOOK cfg <> EmptyString) by (rewrite Hhook; discriminate).
  destruct (requests_post w (DISCORD_WEBHOOK cfg) (purchase_message username item x))
    as [e | answer] eqn:Hpost.
  { destruct e;
      try (now eapply purchase_webhook_timeout; eauto);
      try (now eapply purchase_webhook_unreachable; eauto);
      (eapply purchase_webhook_raises; eauto; discriminate). }
  destruct (status_code answer =? 200) eqn:H200;
    [| destruct (status_code answer =? 204) eqn:H204]; cbn [orb app].
  - apply Z.eqb_eq in H200. eapply purchase_notified; eauto.
  - apply Z.eqb_eq in H204. eapply purchase_notified; eauto.
  - apply Z.eqb_neq in H200, H204. eapply purchase_refused_by_webhook; eauto.
Qed.

(** ** The paths of [create_payment] *)

Lemma in_PRODUCTS_true (v : pyval) :
  in_PRODUCTS v = inr true ->
  exists name pr, v = PStr name /\ Py.lookup name PRODUCTS = Some pr.
Proof.
  unfold in_PRODUCTS. intros H.
  destruct v as [| | | | name | |]; try discriminate H.
  destruct (Py.lookup name PRODUCTS) as [pr |] eqn:Hpr; [| discriminate H].
  exists name, pr. auto.
Qed.

(** Every run of [create_payment] follows one of the paths. *)
Lemma create_payment_path (cfg : config) (w : world) (req : request) :
  create_path cfg w req (run (create_payment cfg w req)).
Proof.
  unfold create_payment.
  destruct (is_json req) eqn:Hjson.
  2: { run_handler. rewrite Hjson. apply create_no_json. auto. }
  destruct (json_body req) as [data |] eqn:Hbody.
  2: { run_handler. rewrite Hjson, Hbody. apply create_no_json. auto. }
  assert (Hobj : (exists d, data = PDict d) \/ forall d, data <> PDict d).
  { destruct data; try (right; intros d' E; discriminate E). left. eauto. }
  destruct Hobj as [[d ->] | Hobj].
  2: { run_handler. rewrite Hjson, Hbody.
       destruct data; try (now eapply create_not_object; eauto).
       exfalso. eapply Hobj. reflexivity. }
  run_handler. rewrite Hjson, Hbody. cbn [Py.get].
  remember (match Py.lookup "product" d with Some v => v | None => PNone end)
    as product_name eqn:Hproduct.
  remember (match Py.lookup "username" d with
            | Some v => v
            | None => PStr "Anonymous"
            end) as username eqn:Husername.
  assert (Hget : Py.get (PDict d) "product" PNone = inr product_name).
  { subst product_name. reflexivity. }
  destruct (Py.truthy product_name) eqn:Htruthy; cbn [negb].
  2: { eapply create_invalid_product; eauto. }
  destruct (in_PRODUCTS product_name) as [e | [|]] eqn:Hin; cbn [negb].
  { eapply create_unhashable_product; eauto. }
  2: { eapply create_invalid_product; eauto. }
  destruct (in_PRODUCTS_true _ Hin) as [name [pr [-> Hpr]]].
  assert (Hchosen : product_chosen req name pr username).
  { exists d. repeat split; try assumption.
    - destruct (Py.lookup "product" d) as [v |]; congruence.
    - intros ->. discriminate Htruthy.
    - subst username. reflexivity. }
  unfold PRODUCTS_getitem, Py.str_method. rewrite Hpr.
  fold (intent_for req name pr username).
  destruct (payment_create w (intent_for req name pr username))
    as [e | [[links |] |]] eqn:Hcreate.
  - eapply create_raises; eauto.
  - eapply create_accepted; eauto.
  - eapply create_without_links; eauto.
  - eapply create_rejected; eauto.
Qed.

(** ** [handle_purchase]: what every run does *)

Ltac invert_purchase :=
  match goal with
  | |- context [run (handle_purchase ?cfg ?w ?req)] =>
      let Hpath := fresh "Hpath" in
      pose proof (handle_purchase_path cfg w req) as Hpath;
      destruct (run (handle_purchase cfg w req)) as [r t];
      inversion Hpath; subst; clear Hpath
  end.

(** X1. [handle_purchase] lets no exception escape: whatever the
    request, the configuration and the answers of the webhook, it
    returns a response, with status 200, 400 or 500. *)
Theorem handle_purchase_always_answers
    (cfg : config) (w : world) (req : request) :
  exists b status,
    fst (run (handle_purchase cfg w req)) = inr (Response b status)
    /\ (status = 200 \/ status = 400 \/ status = 500).
Proof.
  invert_purchase; cbn [fst];
    unfold purchase_internal_error, purchase_missing, purchase_not_configured,
      purchase_success, purchase_bad_status, purchase_timeout,
      purchase_transport_error;
    eexists; eexists; (split; [reflexivity | auto]).
Qed.

(** X2. [handle_purchase] never calls the payment provider and makes at
    most one call: a post to the configured webhook, and none when no
    webhook is configured. *)
Theorem handle_purchase_calls_only_the_webhook
    (cfg : config) (w : world) (req : request) :
  snd (run (handle_purchase cfg w req)) = []
  \/ (DISCORD_WEBHOOK cfg <> EmptyString
      /\ exists message,
          snd (run (handle_purchase cfg w req))
          = [WebhookPost (DISCORD_WEBHOOK cfg) message]).
Proof.
  invert_purchase; cbn [snd]; auto; right; eauto.
Qed.

(** X3. A 200 from [handle_purchase] means that the notification was
    delivered: the request passed every check, the webhook was called
    once with the purchase message and answered 200 or 204, and the
    response echoes the trimmed names and the price as a float. *)
Theorem handle_purchase_success_means_notified
    (cfg : config) (w : world) (req : request) (b : body) :
  fst (run (handle_purchase cfg w req)) = inr (Response b 200) ->
  exists username item x answer,
    purchase_checked req username item x
    /\ Response b 200 = purchase_success username item x
    /\ snd (run (handle_purchase cfg w req))
       = [WebhookPost (DISCORD_WEBHOOK cfg) (purchase_message username item x)]
    /\ requests_post w (DISCORD_WEBHOOK cfg) (purchase_message username item x)
       = inr answer
    /\ (status_code answer = 200 \/ status_code answer = 204).
Proof.
  invert_purchase; cbn [fst snd]; intros E; try discriminate E.
  match goal with
  | H : purchase_checked req ?u ?i ?x, Hpost : requests_post _ _ _ = inr ?a |- _ =>
      exists u, i, x, a
  end.
  repeat split; auto. symmetry. congruence.
Qed.

Lemma handle_purchase_success_means_notified_witness :
  exists username item x answer,
    purchase_checked (purchase_request (PStr " bob ") (PStr "Mod") (PStr "3"))
      username item x
    /\ purchase_success "bob" "Mod" (PyFloat.literal "3")
       = purchase_success username item x
    /\ snd (run (handle_purchase sample_config happy_world
                   (purchase_request (PStr " bob ") (PStr "Mod") (PStr "3"))))
       = [WebhookPost (DISCORD_WEBHOOK sample_config)
            (purchase_message username item x)]
    /\ requests_post happy_world (DISCORD_WEBHOOK sample_config)
         (purchase_message username item x) = inr answer
    /\ (status_code answer = 200 \/ status_code answer = 204).
Proof.
  apply (handle_purchase_success_means_notified sample_config happy_world
           (purchase_request (PStr " bob ") (PStr "Mod") (PStr "3"))).
  vm_compute. reflexivity.
Defined.

(** ** [handle_purchase]: the checks, one by one *)

(** X4. When a required field of a JSON object is absent or false in a
    test, the answer is 400 and its error lists exactly those fields, in
    the order username, item, price; nothing is called. *)
Theorem handle_purchase_lists_missing_fields
    (cfg : config) (w : world) (req : request) (d : list (string * pyval))
    (field : string) (fields : list string) :
  is_json req = true ->
  json_body req = Some (PDict d) ->
  filter (fun f => negb (Py.truthy (match Py.lookup f d with
                                    | Some v => v
                                    | None => PNone
                                    end)))
         ["username"; "item"; "price"]
  = field :: fields ->
  run (handle_purchase cfg w req)
  = (inr (Response
            (Json (PDict
               [("error", PStr ("Missing required fields: "
                                ++ PyStr.join ", " (field :: fields)));
                ("required_fields",
                 PList [PStr "username"; PStr "item"; PStr "price"])]))
            400), []).
Proof.
  intros Hjson Hbody Hfilter.
  purchase_prefix Hjson Hbody. rewrite missing_required.
  unfold required_fields. rewrite Hfilter. reflexivity.
Qed.

Lemma handle_purchase_lists_missing_fields_witness :
  run (handle_purchase sample_config happy_world
         (json_request [("item", PStr EmptyString); ("username", PStr "bob")]
                       "https://shop.example/"))
  = (inr (Response
            (Json (PDict
               [("error", PStr "Missing required fields: item, price");
                ("required_fields",
                 PList [PStr "username"; PStr "item"; PStr "price"])]))
            400), []).
Proof.
  apply (handle_purchase_lists_missing_fields sample_config happy_world
           (json_request [("item", PStr EmptyString); ("username", PStr "bob")]
                         "https://shop.example/")
           [("item", PStr EmptyString); ("username", PStr "bob")]
           "item" ["price"]); reflexivity.
Defined.

(** X5. A JSON body that is not an object (a list, a text, a number,
    [null]) or that does not parse is answered 500, "Internal server
    error", not 400: the field lookup raises and the catch-all takes
    over. Nothing is called. *)
Theorem handle_purchase_body_not_an_object
    (cfg : config) (w : world) (req : request) :
  is_json req = true ->
  (forall d, json_body req <> Some (PDict d)) ->
  run (handle_purchase cfg w req) = (inr purchase_internal_error, []).
Proof.
  intros Hjson Hbody.
  purchase_prefix Hjson Hjson.
  destruct (json_body req) as [[] |]; try reflexivity.
  exfalso. eapply Hbody. reflexivity.
Qed.

Lemma handle_purchase_body_not_an_object_witness :
  run (handle_purchase sample_config happy_world
         {| is_json := true; json_body := Some (PList [PStr "bob"; PStr "Mod"; PInt 3]);
            args := []; url_root := "https://shop.example/" |})
  = (inr purchase_internal_error, []).
Proof.
  apply (handle_purchase_body_not_an_object sample_config happy_world
           {| is_json := true;
              json_body := Some (PList [PStr "bob"; PStr "Mod"; PInt 3]);
              args := []; url_root := "https://shop.example/" |}).
  - reflexivity.
  - intros d H. discriminate H.
Defined.

Ltac purchase_fields Hpresent :=
  let d := fresh "d" in
  let Hjson := fresh "Hjson" in
  let Hbody := fresh "Hbody" in
  let Hu := fresh "Hu" in
  let Hi := fresh "Hi" in
  let Hp := fresh "Hp" in
  let Htu := fresh "Htu" in
  let Hti := fresh "Hti" in
  let Htp := fresh "Htp" in
  destruct Hpresent as [d [Hjson [Hbody [Hu [Hi [Hp [Htu [Hti Htp]]]]]]]];
  purchase_prefix Hjson Hbody; rewrite missing_required;
  unfold required_fields; cbn [filter];
  rewrite Hu, Hi, Hp, Htu, Hti, Htp; cbn [negb];
  unfold Py.getitem, Py.strip, Py.str_method; rewrite Hu, Hi, Hp.

(** X6. A user name that is blank after trimming is answered 400,
    "Username cannot be empty"; with a user name that is not blank, a
    blank item is answered 400, "Item cannot be empty". Both come before
    any look at the price, and nothing is called. *)
Theorem handle_purchase_blank_names
    (cfg : config) (w : world) (req : request) (us its : string) (p : pyval) :
  required_present req (PStr us) (PStr its) p ->
  (PyStr.strip us = EmptyString ->
   run (handle_purchase cfg w req)
   = (inr (Response (json_error "Username cannot be empty") 400), []))
  /\ (PyStr.strip us <> EmptyString -> PyStr.strip its = EmptyString ->
      run (handle_purchase cfg w req)
      = (inr (Response (json_error "Item cannot be empty") 400), [])).
Proof.
  intros Hpresent. split.
  - intros Hblank. purchase_fields Hpresent. rewrite Hblank. reflexivity.
  - intros Hus Hblank. purchase_fields Hpresent.
    rewrite (nonempty_truthy _ Hus), Hblank. reflexivity.
Qed.

Lemma handle_purchase_blank_names_witness :
  run (handle_purchase sample_config happy_world
         (purchase_request (PStr "bob") (PStr "  ") (PStr "not a price")))
  = (inr (Response (json_error "Item cannot be empty") 400), []).
Proof.
  apply (handle_purchase_blank_names sample_config happy_world
           (purchase_request (PStr "bob") (PStr "  ") (PStr "not a price"))
           "bob" "  " (PStr "not a price")).
  - eexists. repeat split; reflexivity.
  - discriminate.
  - reflexivity.
Defined.

Ltac purchase_names Hnames :=
  let us := fresh "us" in
  let its := fresh "its" in
  let Hpresent := fresh "Hpresent" in
  let Eu := fresh "Eu" in
  let Ei := fresh "Ei" in
  let Hune := fresh "Hune" in
  let Hine := fresh "Hine" in
  destruct Hnames as [us [its [Hpresent [Eu [Ei [Hune Hine]]]]]];
  purchase_fields Hpresent;
  rewrite <- Eu, <- Ei;
  rewrite (nonempty_truthy _ Hune), (nonempty_truthy _ Hine); cbn [negb].

(** X7. A price that reads as a float below zero is answered 400,
    "Price cannot be negative", and the webhook is not called. *)
Theorem handle_purchase_negative_price
    (cfg : config) (w : world) (req : request)
    (username item : string) (p : pyval) (x : PyFloat.float) :
  names_given req username item p ->
  Py.float p = inr x ->
  PyFloat.ltb0 x = true ->
  run (handle_purchase cfg w req)
  = (inr (Response (json_error "Price cannot be negative") 400), []).
Proof.
  intros Hnames Hfloat Hsign. purchase_names Hnames.
  rewrite Hfloat, Hsign. reflexivity.
Qed.

Lemma handle_purchase_negative_price_witness :
  run (handle_purchase sample_config happy_world
         (purchase_request (PStr "bob") (PStr "Mod") (PStr "-0.5")))
  = (inr (Response (json_error "Price cannot be negative") 400), []).
Proof.
  apply (handle_purchase_negative_price sample_config happy_world
           (purchase_request (PStr "bob") (PStr "Mod") (PStr "-0.5"))
           "bob" "Mod" (PStr "-0.5") (PyFloat.literal "-0.5")).
  - exists "bob", "Mod". repeat split; try discriminate.
    eexists. repeat split; reflexivity.
  - vm_compute. reflexivity.
  - vm_compute. reflexivity.
Defined.

(** X8. A price that [float()] refuses with [ValueError] (a text that is
    not a number) or [TypeError] (a list, a dict) is answered 400,
    "Price must be a valid number", and the webhook is not called. *)
Theorem handle_purchase_price_not_a_number
    (cfg : config) (w : world) (req : request)
    (username item : string) (p : pyval) :
  names_given req username item p ->
  Py.float p = inl ValueError \/ Py.float p = inl TypeError ->
  run (handle_purchase cfg w req)
  = (inr (Response (json_error "Price must be a valid number") 400), []).
Proof.
  intros Hnames Hfloat. purchase_names Hnames.
  destruct Hfloat as [-> | ->]; reflexivity.
Qed.

Lemma handle_purchase_price_not_a_number_witness :
  run (handle_purchase sample_config happy_world
         (purchase_request (PStr "bob") (PStr "Mod") (PStr "abc")))
  = (inr (Response (json_error "Price must be a valid number") 400), []).
Proof.
  apply (handle_purchase_price_not_a_number sample_config happy_world
           (purchase_request (PStr "bob") (PStr "Mod") (PStr "abc"))
           "bob" "Mod" (PStr "abc")).
  - exists "bob", "Mod". repeat split; try discriminate.
    eexists. repeat split; reflexivity.
  - left. reflexivity.
Defined.

(** X9. An integer price too large for a float is not a validation
    error: [float()] raises [OverflowError], which the [except] around
    it does not catch, and the answer is 500, "Internal server error". *)
Theorem handle_purchase_price_too_large
    (cfg : config) (w : world) (req : request)
    (username item : string) (n : Z) :
  names_given req username item (PInt n) ->
  PyFloat.of_Z n = None ->
  run (handle_purchase cfg w req) = (inr purchase_internal_error, []).
Proof.
  intros Hnames Hlarge. purchase_names Hnames.
  unfold Py.float. rewrite Hlarge. reflexivity.
Qed.

Lemma handle_purchase_price_too_large_witness :
  run (handle_purchase sample_config happy_world
         (purchase_request (PStr "bob") (PStr "Mod") (PInt (10 ^ 400))))
  = (inr purchase_internal_error, []).
Proof.
  apply (handle_purchase_price_too_large sample_config happy_world
           (purchase_request (PStr "bob") (PStr "Mod") (PInt (10 ^ 400)))
           "bob" "Mod" (10 ^ 400)).
  - exists "bob", "Mod". repeat split; try discriminate.
    eexists. repeat split; reflexivity.
  - vm_compute. reflexivity.
Defined.

Ltac purchase_checks Hchecked :=
  let p := fresh "p" in
  let Hnames := fresh "Hnames" in
  let Hfloat := fresh "Hfloat" in
  let Hsign := fresh "Hsign" in
  destruct Hchecked as [p [Hnames [Hfloat Hsign]]];
  purchase_names Hnames; rewrite Hfloat, Hsign.

(** X10. A request that passes every check is still answered 500,
    "Discord webhook not configured", when no webhook URL is set; no
    call is made. *)
Theorem handle_purchase_without_webhook
    (cfg : config) (w : world) (req : request)
    (username item : string) (x : PyFloat.float) :
  purchase_checked req username item x ->
  DISCORD_WEBHOOK cfg = EmptyString ->
  run (handle_purchase cfg w req) = (inr purchase_not_configured, []).
Proof.
  intros Hchecked Hhook. purchase_checks Hchecked.
  rewrite Hhook. reflexivity.
Qed.

Lemma valid_purchase_checked :
  purchase_checked (purchase_request (PStr "bob") (PStr "Mod") (PInt 3))
    "bob" "Mod" (PyFloat.literal "3").
Proof.
  exists (PInt 3). split; [| split; vm_compute; reflexivity].
  exists "bob", "Mod". repeat split; try discriminate.
  eexists. repeat split; reflexivity.
Qed.

Lemma handle_purchase_without_webhook_witness :
  run (handle_purchase {| DISCORD_WEBHOOK := EmptyString |} happy_world
         (purchase_request (PStr "bob") (PStr "Mod") (PInt 3)))
  = (inr purchase_not_configured, []).
Proof.
  apply (handle_purchase_without_webhook {| DISCORD_WEBHOOK := EmptyString |}
           happy_world (purchase_request (PStr "bob") (PStr "Mod") (PInt 3))
           "bob" "Mod" (PyFloat.literal "3")).
  - exact valid_purchase_checked.
  - reflexivity.
Defined.

(** X11. For a checked purchase and a configured webhook, the webhook is
    called once and the answer follows what it does: success on status
    200 or 204; otherwise a 500 that tells why, a timeout, a transport
    error, any other exception (the catch-all), or another status, which
    the message quotes. *)
Theorem handle_purchase_follows_webhook
    (cfg : config) (w : world) (req : request)
    (username item : string) (x : PyFloat.float) :
  purchase_checked req username item x ->
  DISCORD_WEBHOOK cfg <> EmptyString ->
  let message := purchase_message username item x in
  let posted := requests_post w (DISCORD_WEBHOOK cfg) message in
  run (handle_purchase cfg w req)
  = (inr match posted with
         | inl Timeout => purchase_timeout
         | inl RequestException => purchase_transport_error
         | inl _ => purchase_internal_error
         | inr answer =>
             if (status_code answer =? 200) || (status_code answer =? 204)
             then purchase_success username item x
             else purchase_bad_status (status_code answer)
         end,
     [WebhookPost (DISCORD_WEBHOOK cfg) message]).
Proof.
  intros Hchecked Hhook message posted. subst message posted.
  purchase_checks Hchecked.
  rewrite (nonempty_truthy _ Hhook). cbn [negb].
  destruct (requests_post w _ _) as [[] | answer]; try reflexivity.
  cbn [app]. destruct ((status_code answer =? 200) || (status_code answer =? 204));
    reflexivity.
Qed.

Lemma handle_purchase_follows_webhook_witness :
  run (handle_purchase sample_config
         (world_posting (inr {| status_code := 429; text := "slow down" |}))
         (purchase_request (PStr "bob") (PStr "Mod") (PInt 3)))
  = (inr (purchase_bad_status 429),
     [WebhookPost (DISCORD_WEBHOOK sample_config)
        (purchase_message "bob" "Mod" (PyFloat.literal "3"))]).
Proof.
  apply (handle_purchase_follows_webhook sample_config
           (world_posting (inr {| status_code := 429; text := "slow down" |}))
           (purchase_request (PStr "bob") (PStr "Mod") (PInt 3))
           "bob" "Mod" (PyFloat.literal "3")).
  - exact valid_purchase_checked.
  - discriminate.
Defined.

(** X12. A price that reads as NaN is not refused: NaN is not below
    zero, so the purchase goes to the webhook and, when the webhook
    accepts it, succeeds with the price NaN. *)
Theorem handle_purchase_accepts_nan
    (cfg : config) (w : world) (req : request)
    (username item : string) (p : pyval) (answer : http_response) :
  names_given req username item p ->
  Py.float p = inr S754_nan ->
  DISCORD_WEBHOOK cfg <> EmptyString ->
  requests_post w (DISCORD_WEBHOOK cfg) (purchase_message username item S754_nan)
  = inr answer ->
  status_code answer = 200 \/ status_code answer = 204 ->
  run (handle_purchase cfg w req)
  = (inr (purchase_success username item S754_nan),
     [WebhookPost (DISCORD_WEBHOOK cfg) (purchase_message username item S754_nan)]).
Proof.
  intros Hnames Hfloat Hhook Hpost Hstatus. purchase_names Hnames.
  rewrite Hfloat. cbn [PyFloat.ltb0 SFltb SFcompare PyFloat.zero].
  rewrite (nonempty_truthy _ Hhook). cbn [negb]. rewrite Hpost. cbn [app].
  destruct Hstatus as [-> | ->]; reflexivity.
Qed.

Lemma handle_purchase_accepts_nan_witness :
  run (handle_purchase sample_config happy_world
         (purchase_request (PStr "bob") (PStr "Mod") (PStr "nan")))
  = (inr (purchase_success "bob" "Mod" S754_nan),
     [WebhookPost (DISCORD_WEBHOOK sample_config)
        (purchase_message "bob" "Mod" S754_nan)]).
Proof.
  apply (handle_purchase_accepts_nan sample_config happy_world
           (purchase_request (PStr "bob") (PStr "Mod") (PStr "nan"))
           "bob" "Mod" (PStr "nan") no_content).
  - exists "bob", "Mod". repeat split; try discriminate.
    eexists. repeat split; reflexivity.
  - reflexivity.
  - discriminate.
  - reflexivity.
  - right. reflexivity.
Defined.

(** ** [create_payment]: what every run does *)

Ltac invert_create :=
  match goal with
  | |- context [run (create_payment ?cfg ?w ?req)] =>
      let Hpath := fresh "Hpath" in
      pose proof (create_payment_path cfg w req) as Hpath;
      destruct (run (create_payment cfg w req)) as [r t];
      inversion Hpath; subst; clear Hpath
  end.

Lemma approval_response_status (links : list link) :
  approval_response links = NoResponse
  \/ exists b, approval_response links = Response b 200.
Proof.
  induction links as [| l links IH]; simpl.
  - left. reflexivity.
  - destruct (String.eqb (rel l) "approval_url"); [right; eauto | exact IH].
Qed.

(** X13. [create_payment] lets no exception escape. It returns a
    response with status 200, 400 or 500, or returns nothing; the client
    then gets the answer of the handler for status 500. So the client
    always gets a status 200, 400 or 500. *)
Theorem create_payment_always_answers
    (cfg : config) (w : world) (req : request) :
  exists r b status,
    fst (run (create_payment cfg w req)) = inr r
    /\ finalize_request r = Response b status
    /\ (status = 200 \/ status = 400 \/ status = 500).
Proof.
  invert_create; cbn [fst];
    try (eexists; eexists; eexists;
         (split; [reflexivity | split; [reflexivity | auto]]);
         fail).
  destruct (approval_response_status links) as [E | [b E]]; rewrite E.
  - eexists; eexists; eexists.
    split; [reflexivity | split; [reflexivity | auto]].
  - eexists; eexists; eexists.
    split; [reflexivity | split; [reflexivity | auto]].
Qed.

Lemma create_payment_calls_only_for_catalog_aux
    (cfg : config) (w : world) (req : request) :
  snd (run (create_payment cfg w req)) = []
  \/ exists name pr username,
      product_chosen req name pr username
      /\ snd (run (create_payment cfg w req))
         = [PaymentCreate (intent_for req name pr username)].
Proof.
  invert_create; cbn [snd]; auto; right; eauto.
Qed.

(** X14. [create_payment] never posts to the webhook and makes at most
    one call to the provider; it makes that call only when the request
    names a product of the catalog. *)
Theorem create_payment_calls_only_for_catalog
    (cfg : config) (w : world) (req : request) :
  (forall ev, In ev (snd (run (create_payment cfg w req))) -> webhook_call ev = false)
  /\ (List.length (snd (run (create_payment cfg w req))) <= 1)%nat
  /\ (snd (run (create_payment cfg w req)) <> [] ->
      exists name pr username, product_chosen req name pr username).
Proof.
  destruct (create_payment_calls_only_for_catalog_aux cfg w req)
    as [E | [name [pr [username [Hchosen E]]]]]; rewrite E.
  - repeat split.
    + intros ev [].
    + simpl. lia.
    + congruence.
  - repeat split.
    + intros ev [<- | []]. reflexivity.
    + simpl. lia.
    + eauto.
Qed.

Lemma replace_removes (a b : ascii) (s : string) :
  a <> b -> PyStr.contains a (PyStr.replace a b s) = false.
Proof.
  intros Hab. induction s as [| c s IH]; simpl; [reflexivity |].
  rewrite IH, orb_false_r.
  destruct (Ascii.eqb c a) eqn:Hc.
  - apply Ascii.eqb_neq. congruence.
  - exact Hc.
Qed.

(** The run of [create_payment] for a product of the catalog. *)
Lemma create_payment_run
    (cfg : config) (w : world) (req : request)
    (name : string) (pr : product) (username : pyval) :
  product_chosen req name pr username ->
  run (create_payment cfg w req)
  = (inr match payment_create w (intent_for req name pr username) with
         | inl _ | inr (Accepted None) => create_internal_error
         | inr Rejected => Response (json_error "Payment creation failed") 500
         | inr (Accepted (Some links)) => approval_response links
         end,
     [PaymentCreate (intent_for req name pr username)]).
Proof.
  intros [d [Hjson [Hbody [Hproduct [Hname [Hpr Huser]]]]]].
  unfold create_payment. run_handler. rewrite Hjson, Hbody.
  unfold Py.get in *. rewrite Hproduct. injection Huser as Huser. rewrite Huser.
  rewrite (nonempty_truthy _ Hname).
  unfold in_PRODUCTS, PRODUCTS_getitem. rewrite Hpr. cbn [negb Py.str_method].
  fold (intent_for req name pr username).
  destruct (payment_create w _) as [e | [[links |] |]]; reflexivity.
Qed.

(** X15. Whatever [create_payment] asks the provider to create is priced
    by the catalog: one line item, named after a product of the catalog,
    quantity 1, whose price is [str] of the catalog price; the total of
    the transaction is that same text, in the same currency; the sku has
    no space. The request cannot name a price. *)
Theorem create_payment_charges_catalog_price
    (cfg : config) (w : world) (req : request) (p : payment_intent) :
  In (PaymentCreate p) (snd (run (create_payment cfg w req))) ->
  exists name pr it,
    Py.lookup name PRODUCTS = Some pr
    /\ items p = [it]
    /\ item_name it = PStr name
    /\ item_quantity it = 1
    /\ item_price it = PyFloat.repr (price pr)
    /\ amount_total p = item_price it
    /\ amount_currency p = item_currency it
    /\ PyStr.contains " " (item_sku it) = false.
Proof.
  intros Hin.
  destruct (create_payment_calls_only_for_catalog_aux cfg w req) as [E | H].
  - rewrite E in Hin. destruct Hin.
  - destruct H as [name [pr [username [Hchosen E]]]].
    rewrite E in Hin. destruct Hin as [Hp | []]. injection Hp as <-.
    destruct Hchosen as [d [_ [_ [_ [_ [Hpr _]]]]]].
    exists name, pr. eexists. split; [exact Hpr |]. split; [reflexivity |].
    repeat split. cbn [item_sku]. apply replace_removes. discriminate.
Qed.

Lemma create_payment_charges_catalog_price_witness :
  exists name pr it,
    Py.lookup name PRODUCTS = Some pr
    /\ items (mod_alice_intent "https://shop.example/") = [it]
    /\ item_name it = PStr name
    /\ item_quantity it = 1
    /\ item_price it = PyFloat.repr (price pr)
    /\ amount_total (mod_alice_intent "https://shop.example/") = item_price it
    /\ amount_currency (mod_alice_intent "https://shop.example/") = item_currency it
    /\ PyStr.contains " " (item_sku it) = false.
Proof.
  apply (create_payment_charges_catalog_price sample_config happy_world
           (mod_alice_request "https://shop.example/")).
  vm_compute. left. reflexivity.
Defined.

(** ** [create_payment]: the user name and the answer of the provider *)

(** X16. Without a ["username"] in the request the payment is created
    for "Anonymous"; with a ["username"] that is [null] the default is
    not used and the payment is created for the text "None". *)
Theorem create_payment_default_username
    (cfg : config) (w : world) (req : request)
    (d : list (string * pyval)) (name : string) (pr : product) :
  is_json req = true ->
  json_body req = Some (PDict d) ->
  Py.lookup "product" d = Some (PStr name) ->
  name <> EmptyString ->
  Py.lookup name PRODUCTS = Some pr ->
  exists p,
    snd (run (create_payment cfg w req)) = [PaymentCreate p]
    /\ (Py.lookup "username" d = None ->
        custom p = "Anonymous|" ++ name
        /\ description p = name ++ " purchase for Anonymous")
    /\ (Py.lookup "username" d = Some PNone ->
        custom p = "None|" ++ name
        /\ description p = name ++ " purchase for None").
Proof.
  intros Hjson Hbody Hproduct Hname Hpr.
  remember (match Py.lookup "username" d with
            | Some v => v
            | None => PStr "Anonymous"
            end) as username eqn:Husername.
  assert (Hchosen : product_chosen req name pr username).
  { exists d. repeat split; try assumption. subst username. reflexivity. }
  exists (intent_for req name pr username).
  rewrite (create_payment_run cfg w req name pr username Hchosen).
  split; [reflexivity |].
  split; intros Hu; rewrite Hu in Husername; subst username; split; reflexivity.
Qed.

Lemma create_payment_default_username_witness :
  exists p,
    snd (run (create_payment sample_config happy_world
                (json_request [("product", PStr "Mod+")] "https://shop.example/")))
    = [PaymentCreate p]
    /\ (Py.lookup "username" [("product", PStr "Mod+")] = None ->
        custom p = "Anonymous|" ++ "Mod+"
        /\ description p = "Mod+" ++ " purchase for Anonymous")
    /\ (Py.lookup "username" [("product", PStr "Mod+")] = Some PNone ->
        custom p = "None|" ++ "Mod+"
        /\ description p = "Mod+" ++ " purchase for None").
Proof.
  apply (create_payment_default_username sample_config happy_world
           (json_request [("product", PStr "Mod+")] "https://shop.example/")
           [("product", PStr "Mod+")] "Mod+"
           {| price := PyFloat.literal "7.00";
              product_description :=
                "Get Fly, XL Anti-Raid Zone, Teleport Players and Admin Kits w/Command Access" |});
    try reflexivity.
  discriminate.
Defined.

(** The answer for the links of a created payment: the first link whose
    relation is ["approval_url"]. *)
Lemma approval_response_first (before after : list link) (l : link) :
  (forall l', In l' before -> rel l' <> "approval_url") ->
  rel l = "approval_url" ->
  approval_response (before ++ l :: after)%list
  = Response (Json (PDict [("approval_url", PStr (href l))])) 200.
Proof.
  intros Hbefore Hrel.
  induction before as [| l0 before IH]; simpl.
  - rewrite Hrel. reflexivity.
  - destruct (String.eqb (rel l0) "approval_url") eqn:H0.
    + apply String.eqb_eq in H0. exfalso. apply (Hbefore l0); [left; reflexivity | exact H0].
    + apply IH. intros l' Hin. apply Hbefore. right. exact Hin.
Qed.

Lemma approval_response_none (links : list link) :
  (forall l, In l links -> rel l <> "approval_url") ->
  approval_response links = NoResponse.
Proof.
  induction links as [| l links IH]; simpl; intros H; [reflexivity |].
  destruct (String.eqb (rel l) "approval_url") eqn:Hl.
  - apply String.eqb_eq in Hl. exfalso. apply (H l); [left; reflexivity | exact Hl].
  - apply IH. intros l' Hin. apply H. right. exact Hin.
Qed.

(** X17. When the provider accepts the payment, the answer is 200 with
    the target of the first link whose relation is ["approval_url"],
    whatever links come before and after it. *)
Theorem create_payment_returns_first_approval_link
    (cfg : config) (w : world) (req : request)
    (name : string) (pr : product) (username : pyval)
    (before after : list link) (l : link) :
  product_chosen req name pr username ->
  payment_create w (intent_for req name pr username)
  = inr (Accepted (Some (before ++ l :: after)%list)) ->
  (forall l', In l' before -> rel l' <> "approval_url") ->
  rel l = "approval_url" ->
  fst (run (create_payment cfg w req))
  = inr (Response (Json (PDict [("approval_url", PStr (href l))])) 200).
Proof.
  intros Hchosen Hcreate Hbefore Hrel.
  rewrite (create_payment_run cfg w req name pr username Hchosen), Hcreate.
  cbn [fst]. rewrite (approval_response_first before after l Hbefore Hrel).
  reflexivity.
Qed.

Lemma mod_alice_chosen :
  product_chosen (mod_alice_request "https://shop.example/") "Mod"
    {| price := PyFloat.literal "3.00";
       product_description :=
         "Get Fly, Larger Anti-Raid Zone, Teleport and Mod Kits" |}
    (PStr "alice").
Proof.
  eexists. repeat split; try reflexivity. discriminate.
Qed.

Lemma create_payment_returns_first_approval_link_witness :
  fst (run (create_payment sample_config happy_world
              (mod_alice_request "https://shop.example/")))
  = inr (Response
           (Json (PDict [("approval_url", PStr "https://www.example/approve/PAY-1")]))
           200).
Proof.
  apply (create_payment_returns_first_approval_link sample_config happy_world
           (mod_alice_request "https://shop.example/") "Mod" _ (PStr "alice")
           [ {| rel := "self"; href := "https://api.example/payment/PAY-1" |} ] []
           {| rel := "approval_url"; href := "https://www.example/approve/PAY-1" |}
           mod_alice_chosen).
  - reflexivity.
  - intros l' [<- | []]. discriminate.
  - reflexivity.
Defined.

(** X18. When the provider accepts the payment and its answer has a
    list of links none of which has the relation ["approval_url"] (the
    empty list too), the loop ends without a [return] and
    [create_payment] returns nothing. When the answer has no links at
    all, [payment.links] is [None], the loop raises, and the catch-all
    answers 500, "Internal server error". In both cases the provider was
    called once. *)
Theorem create_payment_without_approval_link
    (cfg : config) (w : world) (req : request)
    (name : string) (pr : product) (username : pyval) :
  product_chosen req name pr username ->
  (forall links,
      payment_create w (intent_for req name pr username)
      = inr (Accepted (Some links)) ->
      (forall l, In l links -> rel l <> "approval_url") ->
      run (create_payment cfg w req)
      = (inr NoResponse, [PaymentCreate (intent_for req name pr username)]))
  /\ (payment_create w (intent_for req name pr username) = inr (Accepted None) ->
      run (create_payment cfg w req)
      = (inr (Response (json_error "Internal server error") 500),
         [PaymentCreate (intent_for req name pr username)])).
Proof.
  intros Hchosen.
  rewrite (create_payment_run cfg w req name pr username Hchosen).
  split.
  - intros links Hcreate Hnone. rewrite Hcreate.
    rewrite (approval_response_none links Hnone). reflexivity.
  - intros Hcreate. rewrite Hcreate. reflexivity.
Qed.

Lemma create_payment_without_approval_link_witness :
  run (create_payment sample_config
         (world_creating
            (inr (Some [ {| rel := "self"; href := "https://api.example/payment/PAY-1" |} ])))
         (mod_alice_request "https://shop.example/"))
  = (inr NoResponse, [PaymentCreate (mod_alice_intent "https://shop.example/")]).
Proof.
  apply (proj1 (create_payment_without_approval_link sample_config
                  (world_creating
                     (inr (Some [ {| rel := "self";
                                     href := "https://api.example/payment/PAY-1" |} ])))
                  (mod_alice_request "https://shop.example/") "Mod" _ (PStr "alice")
                  mod_alice_chosen)
           [ {| rel := "self"; href := "https://api.example/payment/PAY-1" |} ]).
  - reflexivity.
  - intros l [<- | []]. discriminate.
Defined.

(** The second half at a provider whose answer has no links. *)
Example create_payment_without_links :
  run (create_payment sample_config world_without_links
         (mod_alice_request "https://shop.example/"))
  = (inr (Response (json_error "Internal server error") 500),
     [PaymentCreate (mod_alice_intent "https://shop.example/")]).
Proof. vm_compute. reflexivity. Qed.

(** X19. When the provider rejects the payment the answer is 500,
    "Payment creation failed"; when the call to the provider raises, the
    answer is 500, "Internal server error". In both cases the provider
    was called once and the webhook not at all. *)
Theorem create_payment_provider_failure
    (cfg : config) (w : world) (req : request)
    (name : string) (pr : product) (username : pyval) :
  product_chosen req name pr username ->
  (payment_create w (intent_for req name pr username) = inr Rejected ->
   run (create_payment cfg w req)
   = (inr (Response (json_error "Payment creation failed") 500),
      [PaymentCreate (intent_for req name pr username)]))
  /\ (forall e,
        payment_create w (intent_for req name pr username) = inl e ->
        run (create_payment cfg w req)
        = (inr (Response (json_error "Internal server error") 500),
           [PaymentCreate (intent_for req name pr username)])).
Proof.
  intros Hchosen.
  rewrite (create_payment_run cfg w req name pr username Hchosen).
  split; [intros -> | intros e ->]; reflexivity.
Qed.

Lemma create_payment_provider_failure_witness :
  fst (run (create_payment sample_config (world_creating (inr None))
              (mod_alice_request "https://shop.example/")))
  = inr (Response (json_error "Payment creation failed") 500).
Proof.
  rewrite (proj1 (create_payment_provider_failure sample_config
                    (world_creating (inr None))
                    (mod_alice_request "https://shop.example/")
                    "Mod" _ (PStr "alice") mod_alice_chosen));
    reflexivity.
Defined.

(** X20. A request to [/create-payment] whose body is not a JSON object
    (no JSON content type, a body that does not parse, a list, a text,
    [null]) is answered 500, "Internal server error", and the provider
    is not called. *)
Theorem create_payment_body_not_an_object
    (cfg : config) (w : world) (req : request) :
  is_json req = false \/ (forall d, json_body req <> Some (PDict d)) ->
  run (create_payment cfg w req)
  = (inr (Response (json_error "Internal server error") 500), []).
Proof.
  intros H. unfold create_payment. run_handler.
  destruct (is_json req); [| reflexivity].
  destruct H as [H | H]; [discriminate H |].
  destruct (json_body req) as [[] |]; try reflexivity.
  exfalso. eapply H. reflexivity.
Qed.

Lemma create_payment_body_not_an_object_witness :
  run (create_payment sample_config happy_world
         (callback_request [("product", "Mod")]))
  = (inr (Response (json_error "Internal server error") 500), []).
Proof.
  apply (create_payment_body_not_an_object sample_config happy_world
           (callback_request [("product", "Mod")])).
  left. reflexivity.
Defined.

(** ** [execute_payment]: what every run does *)

Ltac invert_execute :=
  match goal with
  | |- context [run (execute_payment ?cfg ?w ?req)] =>
      let Hpath := fresh "Hpath" in
      pose proof (execute_payment_path cfg w req) as Hpath;
      destruct (run (execute_payment cfg w req)) as [r t];
      inversion Hpath; subst; clear Hpath
  end.

Ltac in_trace :=
  cbn [In fst snd] in *;
  repeat match goal with
         | H : _ \/ _ |- _ => destruct H
         | H : False |- _ => contradiction
         | H : _ = _ :> event |- _ => inversion H; clear H; subst
         end.

(** X21. [execute_payment] lets no exception escape: it always returns
    a text response, with status 200, 400 or 500. *)
Theorem execute_payment_always_answers
    (cfg : config) (w : world) (req : request) :
  exists page status,
    fst (run (execute_payment cfg w req)) = inr (Response (Text page) status)
    /\ (status = 200 \/ status = 400 \/ status = 500).
Proof.
  invert_execute; cbn [fst];
    unfold missing_payment_info, payment_execution_error, payment_execution_failed;
    eexists; eexists; (split; [reflexivity | auto]).
Qed.

(** The calls of a run of [execute_payment], in their order. *)
Lemma execute_payment_calls (cfg : config) (w : world) (req : request) :
  snd (run (execute_payment cfg w req)) = []
  \/ exists id payer,
      args_get req "paymentId" = Some id /\ id <> EmptyString
      /\ args_get req "PayerID" = Some payer /\ payer <> EmptyString
      /\ (snd (run (execute_payment cfg w req)) = [PaymentFind id]
          \/ exists p rest,
              payment_find w id = inr p
              /\ snd (run (execute_payment cfg w req))
                 = PaymentFind id :: PaymentExecute p payer :: rest
              /\ forall ev, In ev rest -> webhook_call ev = true).
Proof.
  unfold execute_payment, notify_payment.
  remember (Py.truthy (PStr (DISCORD_WEBHOOK cfg))) as configured eqn:Hhook.
  destruct (absent_or_empty (args_get req "paymentId")
            || absent_or_empty (args_get req "PayerID")) eqn:Hargs.
  { left. reflexivity. }
  right.
  apply orb_false_iff in Hargs. destruct Hargs as [Hid Hpayer].
  destruct (absent_or_empty_false _ Hid) as [id [Eid Hidne]].
  destruct (absent_or_empty_false _ Hpayer) as [payer [Epayer Hpayerne]].
  exists id, payer. repeat (split; [assumption |]).
  run_handler. rewrite Eid, Epayer. simpl.
  destruct (payment_find w id) as [e | p] eqn:Hfind; [left; reflexivity | right].
  exists p.
  destruct (payment_execute w p payer) as [e | [p' |]];
    try (exists []; split; [reflexivity | split; [reflexivity | intros ev []]]).
  unfold first_transaction.
  destruct (transactions p') as [| t rest];
    try (exists []; split; [reflexivity | split; [reflexivity | intros ev []]]).
  destruct (decode_metadata (transaction_custom t)) as [e | [username product_name]];
    try (exists []; split; [reflexivity | split; [reflexivity | intros ev []]]).
  destruct (Py.float (transaction_total t)) as [e | x];
    try (exists []; split; [reflexivity | split; [reflexivity | intros ev []]]).
  destruct configured.
  - destruct (requests_post w (DISCORD_WEBHOOK cfg) _);
      (eexists; split; [reflexivity | split; [reflexivity |]]);
      intros ev [<- | []]; reflexivity.
  - exists []. split; [reflexivity | split; [reflexivity | intros ev []]].
Qed.

(** X22. [execute_payment] executes only the payment that the provider
    found under the [paymentId] of the request, with the [PayerID] of
    the request, both not empty; it looks that payment up first, and
    executes it once. *)
Theorem execute_payment_executes_what_it_found
    (cfg : config) (w : world) (req : request) (p : payment) (payer : string) :
  In (PaymentExecute p payer) (snd (run (execute_payment cfg w req))) ->
  exists id rest,
    args_get req "paymentId" = Some id /\ id <> EmptyString
    /\ args_get req "PayerID" = Some payer /\ payer <> EmptyString
    /\ payment_find w id = inr p
    /\ snd (run (execute_payment cfg w req))
       = PaymentFind id :: PaymentExecute p payer :: rest
    /\ ~ In (PaymentExecute p payer) rest.
Proof.
  intros Hin.
  destruct (execute_payment_calls cfg w req)
    as [E | [id [payer0 [Eid [Hid [Epayer [Hpayer [E | [p0 [rest [Hfind [E Hrest]]]]]]]]]]]];
    rewrite E in Hin |- *.
  - destruct Hin.
  - destruct Hin as [H | []]. discriminate H.
  - assert (Hnot : forall q y, ~ In (PaymentExecute q y) rest).
    { intros q y H. specialize (Hrest _ H). discriminate Hrest. }
    destruct Hin as [H | [H | H]]; [discriminate H | | destruct (Hnot _ _ H)].
    injection H as -> ->.
    exists id, rest. repeat split; auto.
Qed.

Lemma execute_payment_executes_what_it_found_witness :
  exists id rest,
    args_get callback "paymentId" = Some id /\ id <> EmptyString
    /\ args_get callback "PayerID" = Some "P-9" /\ "P-9" <> EmptyString
    /\ payment_find happy_world id = inr paid_alice_mod
    /\ snd (run (execute_payment sample_config happy_world callback))
       = PaymentFind id :: PaymentExecute paid_alice_mod "P-9" :: rest
    /\ ~ In (PaymentExecute paid_alice_mod "P-9") rest.
Proof.
  apply (execute_payment_executes_what_it_found sample_config happy_world callback
           paid_alice_mod "P-9").
  vm_compute. right. left. reflexivity.
Defined.

(** X23. [execute_payment] notifies at most once, only the configured
    webhook, and only after the provider has executed the payment: a
    post in the trace is its third and last call, after the lookup and
    the successful execution, and the answer is the confirmation. *)
Theorem execute_payment_notifies_after_execution
    (cfg : config) (w : world) (req : request) (url : string) (message : pyval) :
  In (WebhookPost url message) (snd (run (execute_payment cfg w req))) ->
  url = DISCORD_WEBHOOK cfg /\ url <> EmptyString
  /\ exists id p payer p' page,
      payment_execute w p payer = inr (Some p')
      /\ snd (run (execute_payment cfg w req))
         = [PaymentFind id; PaymentExecute p payer; WebhookPost url message]
      /\ fst (run (execute_payment cfg w req)) = inr (Response (Text page) 200).
Proof.
  invert_execute; intros Hin; in_trace.
  repeat split; auto. eauto 10.
Qed.

Lemma execute_payment_notifies_after_execution_witness :
  DISCORD_WEBHOOK sample_config = DISCORD_WEBHOOK sample_config
  /\ DISCORD_WEBHOOK sample_config <> EmptyString
  /\ exists id p payer p' page,
      payment_execute happy_world p payer = inr (Some p')
      /\ snd (run (execute_payment sample_config happy_world callback))
         = [PaymentFind id; PaymentExecute p payer;
            WebhookPost (DISCORD_WEBHOOK sample_config)
              (payment_message "alice" "Mod" (PyFloat.literal "3.0") (PStr "PAY-1"))]
      /\ fst (run (execute_payment sample_config happy_world callback))
         = inr (Response (Text page) 200).
Proof.
  apply (execute_payment_notifies_after_execution sample_config happy_world callback
           (DISCORD_WEBHOOK sample_config)
           (payment_message "alice" "Mod" (PyFloat.literal "3.0") (PStr "PAY-1"))).
  vm_compute. right. right. left. reflexivity.
Defined.

(** X24. A confirmation from [execute_payment] means that the payment was
    executed: a 200 is returned only after the provider found the
    payment and executed it, and the page shows the names decoded from
    its metadata and its total read as a float. *)
Theorem execute_payment_confirms_only_executed
    (cfg : config) (w : world) (req : request) (b : body) :
  fst (run (execute_payment cfg w req)) = inr (Response b 200) ->
  exists id payer p p' t rest username product_name x,
    payment_find w id = inr p
    /\ payment_execute w p payer = inr (Some p')
    /\ In (PaymentExecute p payer) (snd (run (execute_payment cfg w req)))
    /\ transactions p' = t :: rest
    /\ decode_metadata (transaction_custom t) = inr (username, product_name)
    /\ Py.float (transaction_total t) = inr x
    /\ b = Text (success_page username product_name x).
Proof.
  invert_execute; cbn [fst snd]; intros E; try discriminate E;
    injection E as <-;
    do 9 eexists; repeat split; eauto; cbn [In]; auto.
Qed.

Lemma execute_payment_confirms_only_executed_witness :
  exists id payer p p' t rest username product_name x,
    payment_find happy_world id = inr p
    /\ payment_execute happy_world p payer = inr (Some p')
    /\ In (PaymentExecute p payer)
          (snd (run (execute_payment sample_config happy_world callback)))
    /\ transactions p' = t :: rest
    /\ decode_metadata (transaction_custom t) = inr (username, product_name)
    /\ Py.float (transaction_total t) = inr x
    /\ Text (success_page "alice" "Mod" (PyFloat.literal "3.0"))
       = Text (success_page username product_name x).
Proof.
  apply (execute_payment_confirms_only_executed sample_config happy_world callback).
  vm_compute. reflexivity.
Defined.

(** ** [execute_payment]: the provider and the webhook *)

(** The request carries both parameters, not empty. *)
Lemma callback_parameters (req : request) (id payer : string) :
  args_get req "paymentId" = Some id -> id <> EmptyString ->
  args_get req "PayerID" = Some payer -> payer <> EmptyString ->
  absent_or_empty (args_get req "paymentId")
  || absent_or_empty (args_get req "PayerID") = false.
Proof.
  intros -> Hid -> Hpayer. unfold absent_or_empty.
  rewrite (nonempty_truthy _ Hid), (nonempty_truthy _ Hpayer). reflexivity.
Qed.

Ltac execute_prefix Eid Hid Epayer Hpayer :=
  unfold execute_payment, notify_payment; run_handler; cbv zeta;
  rewrite (callback_parameters _ _ _ Eid Hid Epayer Hpayer);
  rewrite Eid, Epayer; cbn [text_of].

(** X25. When the lookup of the payment raises, the answer is 500,
    "Payment execution error", and nothing is executed; when the
    execution raises, the answer is the same and no notification is
    sent. *)
Theorem execute_payment_provider_raises
    (cfg : config) (w : world) (req : request) (id payer : string) :
  args_get req "paymentId" = Some id -> id <> EmptyString ->
  args_get req "PayerID" = Some payer -> payer <> EmptyString ->
  (forall e,
      payment_find w id = inl e ->
      run (execute_payment cfg w req)
      = (inr payment_execution_error, [PaymentFind id]))
  /\ (forall p e,
        payment_find w id = inr p ->
        payment_execute w p payer = inl e ->
        run (execute_payment cfg w req)
        = (inr payment_execution_error,
           [PaymentFind id; PaymentExecute p payer])).
Proof.
  intros Eid Hid Epayer Hpayer. split.
  - intros e Hfind. execute_prefix Eid Hid Epayer Hpayer.
    rewrite Hfind. reflexivity.
  - intros p e Hfind Hexec. execute_prefix Eid Hid Epayer Hpayer.
    rewrite Hfind. cbn [app]. rewrite Hexec. reflexivity.
Qed.

Lemma execute_payment_provider_raises_witness :
  run (execute_payment sample_config
         (sample_world paid_alice_mod (inl SDKError) (inr no_content)) callback)
  = (inr payment_execution_error,
     [PaymentFind "PAY-1"; PaymentExecute paid_alice_mod "P-9"]).
Proof.
  apply (proj2 (execute_payment_provider_raises sample_config
                  (sample_world paid_alice_mod (inl SDKError) (inr no_content))
                  callback "PAY-1" "P-9"
                  eq_refl ltac:(discriminate) eq_refl ltac:(discriminate))
           paid_alice_mod SDKError); reflexivity.
Defined.

(** X26. The answer of [execute_payment] does not depend on the webhook:
    two worlds with the same provider give the same answer, whatever
    their webhooks return or raise. *)
Theorem execute_payment_answer_ignores_webhook
    (cfg : config) (w w' : world) (req : request) :
  (forall id, payment_find w id = payment_find w' id) ->
  (forall p payer, payment_execute w p payer = payment_execute w' p payer) ->
  fst (run (execute_payment cfg w req)) = fst (run (execute_payment cfg w' req)).
Proof.
  intros Hfind Hexec.
  unfold execute_payment, notify_payment.
  remember (Py.truthy (PStr (DISCORD_WEBHOOK cfg))) as configured eqn:Hhook.
  run_handler. cbv zeta.
  destruct (absent_or_empty (args_get req "paymentId")
            || absent_or_empty (args_get req "PayerID")); [reflexivity |].
  rewrite <- Hfind.
  destruct (payment_find w _) as [e | p]; [reflexivity |].
  cbn [app]. rewrite <- Hexec.
  destruct (payment_execute w p _) as [e | [p' |]]; try reflexivity.
  unfold first_transaction.
  destruct (transactions p') as [| t rest]; [reflexivity |].
  destruct (decode_metadata (transaction_custom t)) as [e | [username product_name]];
    [reflexivity |].
  destruct (Py.float (transaction_total t)) as [e | x]; [reflexivity |].
  destruct configured; [| reflexivity].
  destruct (requests_post w (DISCORD_WEBHOOK cfg) _);
    destruct (requests_post w' (DISCORD_WEBHOOK cfg) _); reflexivity.
Qed.

Lemma execute_payment_answer_ignores_webhook_witness :
  fst (run (execute_payment sample_config happy_world callback))
  = fst (run (execute_payment sample_config
                (world_posting (inr {| status_code := 500; text := "down" |}))
                callback)).
Proof.
  apply (execute_payment_answer_ignores_webhook sample_config happy_world
           (world_posting (inr {| status_code := 500; text := "down" |})) callback);
    reflexivity.
Defined.

(** Without a configured webhook a payment that executes and
    decodes is confirmed all the same, with two calls, the lookup and
    the execution, and no notification. *)
Theorem execute_payment_without_webhook
    (cfg : config) (w : world) (req : request) (id payer : string)
    (p p' : payment) (t : transaction) (rest : list transaction)
    (username product_name : string) (x : PyFloat.float) :
  args_get req "paymentId" = Some id -> id <> EmptyString ->
  args_get req "PayerID" = Some payer -> payer <> EmptyString ->
  payment_find w id = inr p ->
  payment_execute w p payer = inr (Some p') ->
  transactions p' = t :: rest ->
  decode_metadata (transaction_custom t) = inr (username, product_name) ->
  Py.float (transaction_total t) = inr x ->
  DISCORD_WEBHOOK cfg = EmptyString ->
  run (execute_payment cfg w req)
  = (inr (Response (Text (success_page username product_name x)) 200),
     [PaymentFind id; PaymentExecute p payer]).
Proof.
  intros Eid Hid Epayer Hpayer Hfind Hexec Htrans Hdecode Hfloat Hhook.
  execute_prefix Eid Hid Epayer Hpayer.
  rewrite Hfind. cbn [app]. rewrite Hexec.
  unfold first_transaction. rewrite Htrans, Hdecode, Hfloat, Hhook. reflexivity.
Qed.

Lemma execute_payment_without_webhook_witness :
  run (execute_payment {| DISCORD_WEBHOOK := EmptyString |} happy_world callback)
  = (inr (Response (Text (success_page "alice" "Mod" (PyFloat.literal "3.0"))) 200),
     [PaymentFind "PAY-1"; PaymentExecute paid_alice_mod "P-9"]).
Proof.
  apply (execute_payment_without_webhook {| DISCORD_WEBHOOK := EmptyString |}
           happy_world callback "PAY-1" "P-9" paid_alice_mod paid_alice_mod
           {| transaction_custom := PStr "alice|Mod"; transaction_total := PStr "3.0" |}
           [] "alice" "Mod" (PyFloat.literal "3.0"));
    try reflexivity; discriminate.
Defined.

(** X27. When the total of an executed payment does not read as a float,
    the answer is 500, "Payment execution error", although the provider
    has executed the payment; no notification is sent. *)
Theorem execute_payment_unreadable_total
    (cfg : config) (w : world) (req : request) (id payer : string)
    (p p' : payment) (t : transaction) (rest : list transaction)
    (names : string * string) (e : exn) :
  args_get req "paymentId" = Some id -> id <> EmptyString ->
  args_get req "PayerID" = Some payer -> payer <> EmptyString ->
  payment_find w id = inr p ->
  payment_execute w p payer = inr (Some p') ->
  transactions p' = t :: rest ->
  decode_metadata (transaction_custom t) = inr names ->
  Py.float (transaction_total t) = inl e ->
  run (execute_payment cfg w req)
  = (inr payment_execution_error, [PaymentFind id; PaymentExecute p payer]).
Proof.
  intros Eid Hid Epayer Hpayer Hfind Hexec Htrans Hdecode Hfloat.
  execute_prefix Eid Hid Epayer Hpayer.
  rewrite Hfind. cbn [app]. rewrite Hexec.
  unfold first_transaction. rewrite Htrans, Hdecode. destruct names.
  rewrite Hfloat. reflexivity.
Qed.

Lemma execute_payment_unreadable_total_witness :
  run (execute_payment sample_config
         (sample_world paid_alice_mod
            (inr (Some (sample_payment (PStr "alice|Mod") (PStr "3,00"))))
            (inr no_content))
         callback)
  = (inr payment_execution_error,
     [PaymentFind "PAY-1"; PaymentExecute paid_alice_mod "P-9"]).
Proof.
  apply (execute_payment_unreadable_total sample_config
           (sample_world paid_alice_mod
              (inr (Some (sample_payment (PStr "alice|Mod") (PStr "3,00"))))
              (inr no_content))
           callback "PAY-1" "P-9" paid_alice_mod
           (sample_payment (PStr "alice|Mod") (PStr "3,00"))
           {| transaction_custom := PStr "alice|Mod"; transaction_total := PStr "3,00" |}
           [] ("alice", "Mod") ValueError);
    try reflexivity; discriminate.
Defined.

Lemma execute_payment_empty_parameter_witness :
  run (execute_payment sample_config happy_world
         (callback_request [("paymentId", "PAY-1"); ("PayerID", EmptyString)]))
  = (inr missing_payment_info, []).
Proof.
  apply (execute_payment_empty_parameter sample_config happy_world
           (callback_request [("paymentId", "PAY-1"); ("PayerID", EmptyString)])).
  right. reflexivity.
Defined.

(** ** The metadata between [create_payment] and [execute_payment] *)

Section Pieces.

Variable sep : ascii.

Lemma split_length (s : string) :
  List.length (PyStr.split sep s) = S (count_char sep s).
Proof.
  induction s as [| c s IH]; simpl; [reflexivity |].
  destruct (Ascii.eqb c sep); simpl.
  - rewrite IH. reflexivity.
  - pose proof (split_not_nil sep s) as Hne.
    destruct (PyStr.split sep s) as [| piece pieces]; [congruence |].
    simpl in *. exact IH.
Qed.

Lemma count_char_app (a b : string) :
  count_char sep (a ++ b) = (count_char sep a + count_char sep b)%nat.
Proof.
  induction a as [| c a IH]; simpl; [reflexivity |].
  rewrite IH. lia.
Qed.

Lemma count_char_contains (s : string) :
  PyStr.contains sep s = true <-> (1 <= count_char sep s)%nat.
Proof.
  induction s as [| c s IH]; simpl.
  - split; [discriminate | lia].
  - destruct (Ascii.eqb c sep); simpl.
    + split; [lia | reflexivity].
    + exact IH.
Qed.

(** Joining the pieces with the separator gives the text back. *)
Lemma join_split (s : string) :
  PyStr.join (String sep EmptyString) (PyStr.split sep s) = s.
Proof.
  induction s as [| c s IH]; simpl; [reflexivity |].
  pose proof (split_not_nil sep s) as Hne.
  destruct (Ascii.eqb c sep) eqn:Hc.
  - apply Ascii.eqb_eq in Hc. subst c.
    destruct (PyStr.split sep s) as [| piece pieces] eqn:Hs; [congruence |].
    simpl in *. rewrite IH. reflexivity.
  - destruct (PyStr.split sep s) as [| piece pieces] eqn:Hs; [congruence |].
    destruct pieces as [| piece' pieces]; simpl in *; rewrite <- IH; reflexivity.
Qed.

(** No piece contains the separator. *)
Lemma split_pieces (s : string) :
  Forall (fun piece => PyStr.contains sep piece = false) (PyStr.split sep s).
Proof.
  induction s as [| c s IH]; simpl.
  - constructor; [reflexivity | constructor].
  - destruct (Ascii.eqb c sep) eqn:Hc.
    + constructor; [reflexivity | exact IH].
    + destruct (PyStr.split sep s) as [| piece pieces]; inversion IH; subst.
      * constructor; [simpl; rewrite Hc; reflexivity | constructor].
      * constructor; [| assumption]. simpl. rewrite Hc. assumption.
Qed.

End Pieces.

(** The text written for two names without delimiter decodes to them. *)
Lemma decode_metadata_pair (a b : string) :
  PyStr.contains "|" a = false -> PyStr.contains "|" b = false ->
  decode_metadata (PStr (custom_metadata (PStr a) (PStr b))) = inr (a, b).
Proof.
  intros Ha Hb.
  unfold decode_metadata, custom_metadata, Py.split, Py.str_method, Py.str.
  change (a ++ "|" ++ b) with (a ++ String "|" b).
  rewrite (split_at_first_sep "|" a b Ha), (split_without_sep "|" b Hb).
  reflexivity.
Qed.

(** X28. The metadata decodes to a pair of names exactly when it is the
    first name, one delimiter and the second name, with no delimiter in
    either name: [execute_payment] undoes what [create_payment] wrote,
    and accepts nothing else. *)
Theorem decode_metadata_exactly (s a b : string) :
  decode_metadata (PStr s) = inr (a, b)
  <-> s = a ++ "|" ++ b
      /\ PyStr.contains "|" a = false /\ PyStr.contains "|" b = false.
Proof.
  unfold decode_metadata, Py.split, Py.str_method, Py.unpack2. split.
  - intros H.
    pose proof (join_split "|" s) as Hjoin.
    pose proof (split_pieces "|" s) as Hpieces.
    destruct (PyStr.split "|" s) as [| a' [| b' [| c' rest]]]; try discriminate H.
    injection H as -> ->.
    inversion Hpieces as [| ? ? Ha Hrest]; subst.
    inversion Hrest as [| ? ? Hb _]; subst.
    repeat split; assumption.
  - intros [-> [Ha Hb]].
    change (a ++ "|" ++ b) with (a ++ String "|" b).
    rewrite (split_at_first_sep "|" a b Ha), (split_without_sep "|" b Hb).
    reflexivity.
Qed.

(** X29. A delimiter inside the user name or the product name breaks the
    round trip: the metadata written for such names never decodes, the
    unpacking raises [ValueError]. *)
Theorem delimiter_in_a_name_breaks_decoding (username product_name : string) :
  PyStr.contains "|" username = true \/ PyStr.contains "|" product_name = true ->
  decode_metadata (PStr (custom_metadata (PStr username) (PStr product_name)))
  = inl ValueError.
Proof.
  intros H.
  unfold decode_metadata, custom_metadata, Py.split, Py.str_method, Py.str.
  pose proof (split_length "|" (username ++ "|" ++ product_name)) as Hlen.
  rewrite count_char_app in Hlen.
  change (count_char "|" ("|" ++ product_name))
    with (S (count_char "|" product_name)) in Hlen.
  assert (Hcount : (1 <= count_char "|" username + count_char "|" product_name)%nat).
  { destruct H as [H | H]; apply count_char_contains in H; lia. }
  destruct (PyStr.split "|" (username ++ "|" ++ product_name))
    as [| a [| b [| c rest]]]; simpl in Hlen; try lia; reflexivity.
Qed.

Lemma delimiter_in_a_name_breaks_decoding_witness :
  decode_metadata (PStr (custom_metadata (PStr "al|ice") (PStr "Mod")))
  = inl ValueError.
Proof.
  apply (delimiter_in_a_name_breaks_decoding "al|ice" "Mod").
  left. reflexivity.
Defined.

(** ** From [create_payment] to [execute_payment] *)

Lemma lookup_In {A : Type} (k : string) (d : list (string * A)) (v : A) :
  Py.lookup k d = Some v -> In (k, v) d.
Proof.
  induction d as [| [k' v'] d IH]; simpl; [discriminate |].
  destruct (String.eqb k' k) eqn:Hk.
  - apply String.eqb_eq in Hk. intros [= ->]. left. congruence.
  - intros H. right. exact (IH H).
Qed.

(** What the catalog guarantees for the round trip: no name has a
    delimiter, and every price reads back from its text. *)
Lemma catalog_round_trip (name : string) (pr : product) :
  Py.lookup name PRODUCTS = Some pr ->
  PyStr.contains "|" name = false
  /\ Py.float (PStr (PyFloat.repr (price pr))) = inr (price pr).
Proof.
  intros H. apply lookup_In in H. unfold PRODUCTS in H. cbn [In] in H.
  repeat match goal with
         | H : _ \/ _ |- _ => destruct H as [H | H]
         end;
    try contradiction;
    injection H as <- <-; split; vm_compute; reflexivity.
Qed.

(** X30. The two handlers compose. If [create_payment] asked for a
    payment for a product of the catalog and a user name without
    delimiter, and the provider later hands that payment back with its
    metadata and total, then [execute_payment] confirms with exactly the
    user name, the product name and the catalog price of the creation,
    whatever the webhook does. *)
Theorem created_payment_is_confirmed_as_created
    (cfg : config) (w : world) (created executed : request)
    (name : string) (pr : product) (username id payer : string) :
  product_chosen created name pr (PStr username) ->
  PyStr.contains "|" username = false ->
  args_get executed "paymentId" = Some id -> id <> EmptyString ->
  args_get executed "PayerID" = Some payer -> payer <> EmptyString ->
  echoes w id payer (intent_for created name pr (PStr username)) ->
  fst (run (execute_payment cfg w executed))
  = inr (Response (Text (success_page username name (price pr))) 200).
Proof.
  intros Hchosen Huser Eid Hid Epayer Hpayer
    [p [p' [t [rest [Hfind [Hexec [Htrans [Hcustom Htotal]]]]]]]].
  destruct Hchosen as [d [_ [_ [_ [_ [Hpr _]]]]]].
  destruct (catalog_round_trip name pr Hpr) as [Hname Hprice].
  assert (Hdecode : decode_metadata (transaction_custom t) = inr (username, name)).
  { rewrite Hcustom. apply decode_metadata_pair; assumption. }
  assert (Hfloat : Py.float (transaction_total t) = inr (price pr)).
  { rewrite Htotal. exact Hprice. }
  unfold execute_payment, notify_payment.
  remember (Py.truthy (PStr (DISCORD_WEBHOOK cfg))) as configured eqn:Hhook.
  run_handler. cbv zeta.
  rewrite (callback_parameters _ _ _ Eid Hid Epayer Hpayer).
  rewrite Eid, Epayer. cbn [text_of].
  rewrite Hfind. cbn [app]. rewrite Hexec.
  unfold first_transaction. rewrite Htrans, Hdecode, Hfloat.
  destruct configured; [| reflexivity].
  destruct (requests_post w (DISCORD_WEBHOOK cfg) _); reflexivity.
Qed.

Lemma created_payment_is_confirmed_as_created_witness :
  fst (run (execute_payment sample_config happy_world callback))
  = inr (Response (Text (success_page "alice" "Mod" (PyFloat.literal "3.00"))) 200).
Proof.
  apply (created_payment_is_confirmed_as_created sample_config happy_world
           (mod_alice_request "https://shop.example/") callback
           "Mod" _ "alice" "PAY-1" "P-9" mod_alice_chosen);
    try reflexivity; try discriminate.
  exists paid_alice_mod, paid_alice_mod,
    {| transaction_custom := PStr "alice|Mod"; transaction_total := PStr "3.0" |}, [].
  repeat split.
Defined.
